(** * standup_snitch: presence report over a chat channel's history

    A shallow embedding of [standup_snitch.py].  Python dictionaries are
    insertion-ordered association lists with string keys, exceptions are
    an explicit result type, and the effects of the script (printing,
    the remote call, the debug dump) are logged in a trace. *)

From Stdlib Require Import List String Ascii ZArith Bool Lia Permutation Sorted
  DecimalString.
Import ListNotations.
Local Open Scope string_scope.

(** ** Python dictionaries with string keys *)

(** A [dict] keeps its entries in insertion order, as a Python 3 dict does. *)
Definition dict (V : Type) := list (string * V).

Section DictOps.
Context {V : Type}.

(** [d.get(k)]: the value stored under [k], if any. *)
Fixpoint dict_get (k : string) (d : dict V) : option V :=
  match d with
  | [] => None
  | (k', v) :: rest => if String.eqb k k' then Some v else dict_get k rest
  end.

(** [d[k] = v]: overwrite in place when [k] is present, append otherwise.
    The assignment never raises. *)
Fixpoint dict_set (k : string) (v : V) (d : dict V) : dict V :=
  match d with
  | [] => [(k, v)]
  | (k', v') :: rest =>
      if String.eqb k k' then (k', v) :: rest
      else (k', v') :: dict_set k v rest
  end.

(** Iterating over a dict yields its keys in insertion order. *)
Definition dict_keys (d : dict V) : list string := map fst d.

(** [k in d] *)
Definition dict_mem (k : string) (d : dict V) : bool :=
  match dict_get k d with Some _ => true | None => false end.

(** Keys of a dict are pairwise distinct. *)
Definition dict_wf (d : dict V) : Prop := NoDup (dict_keys d).
End DictOps.

(** [a == b] on dicts: same number of entries, and every entry of [a] is
    found in [b] with an equal value.  The order of the entries is not
    compared. *)
Definition dict_eqb {V : Type} (veqb : V -> V -> bool) (a b : dict V) : bool :=
  Nat.eqb (List.length a) (List.length b) &&
  forallb (fun kv => match dict_get (fst kv) b with
                     | Some v' => veqb (snd kv) v'
                     | None => false
                     end) a.

(** ** Exceptions *)

Inductive exn : Type :=
| KeyError (key : string)
| StopIteration
| Exception (msg : string)
| ExternalError (what : string).   (* raised by a library or by the remote service *)

Inductive result (A : Type) : Type :=
| Return (a : A)
| Raise (e : exn).
Arguments Return {A} a.
Arguments Raise {A} e.

Definition rbind {A B : Type} (r : result A) (f : A -> result B) : result B :=
  match r with
  | Return a => f a
  | Raise e => Raise e
  end.

(** Sequencing, shared by pure fallible code ([result]) and by code with
    effects ([M], below). *)
Class Monad (m : Type -> Type) : Type := {
  ret : forall {A : Type}, A -> m A;
  bind : forall {A B : Type}, m A -> (A -> m B) -> m B
}.

Declare Scope monad_scope.
Delimit Scope monad_scope with monad.
Notation "x <- c1 ;; c2" := (bind c1 (fun x => c2))
  (at level 61, c1 at next level, right associativity) : monad_scope.
Notation "c1 ;; c2" := (bind c1 (fun _ => c2))
  (at level 61, right associativity) : monad_scope.
Local Open Scope monad_scope.

#[export] Instance Monad_result : Monad result := {
  ret := @Return;
  bind := @rbind
}.

(** [d[k]] as an expression: raises [KeyError] when [k] is absent. *)
Definition getitem {V : Type} (k : string) (d : dict V) : result V :=
  match dict_get k d with
  | Some v => Return v
  | None => Raise (KeyError k)
  end.

(** A list comprehension [[f(x) for x in l]] whose element expression can
    raise: the first exception, in iteration order, aborts it. *)
Fixpoint rmap {A B : Type} (f : A -> result B) (l : list A) : result (list B) :=
  match l with
  | [] => Return []
  | x :: rest =>
      y <- f x ;;
      ys <- rmap f rest ;;
      Return (y :: ys)
  end.

(** ** Data model *)

(** A roster entry, as built by [read_config_files]. *)
Record user_info : Type := mk_user_info {
  user_name : string;
  real_name : string;
  user_id : string
}.

(** A message of the channel history: a JSON object whose fields the
    script reads ([type], [user], [ts]) are strings. *)
Definition message := dict string.

(** The fields of the raw response of [channels.history]: flags such as
    [ok] and [has_more], texts such as [error], and the list under
    [messages], which an error response does not have. *)
Inductive json_field : Type :=
| JBool (b : bool)
| JStr (s : string)
| JMessages (l : list message).

Definition response := dict json_field.

(** [for message in v]: a list yields its records and an empty string
    nothing; a character of a string cannot be indexed by a field name
    and a flag cannot be iterated. *)
Definition iter_messages (v : json_field) : result (list message) :=
  match v with
  | JMessages l => Return l
  | JStr EmptyString => Return []
  | JStr _ => Raise (ExternalError "TypeError")
  | JBool _ => Raise (ExternalError "TypeError")
  end.

(** ** Formatting helpers *)

Definition nl : string := String "010" EmptyString.

Definition format_channel_for_slack (channel_dict : dict string) : result string :=
  cid <- getitem "channel_id" channel_dict ;;
  cname <- getitem "channel_name" channel_dict ;;
  Return (String.concat "" ["<#"; cid; "|"; cname; ">"]).

Definition format_user_for_slack (uid : string) (info : user_info) : string :=
  String.concat "" ["<@"; uid; "|"; user_name info; ">"].

(** ["%s (%s)" % (user_info['real_name'], user_info['user_name'])] *)
Definition format_user_for_text (uid : string) (info : user_info) : string :=
  real_name info ++ " (" ++ user_name info ++ ")".

(** ["%d" % n] *)
Definition format_int (n : Z) : string := NilZero.string_of_int (Z.to_int n).

(** ** Presence Aggregator *)

(** The first loop of [aggregate_activity]: every roster key is set to
    [False]. *)
Definition init_activity (users : dict user_info) : dict bool :=
  fold_left (fun d uid => dict_set uid false d) (dict_keys users) [].

(** The body of the second loop.  Only [message['user']] can raise
    [KeyError]; the assignment that follows inserts the key when it is
    not there yet. *)
Definition record_message (user_activity_dict : dict bool) (m : message) : dict bool :=
  match dict_get "user" m with
  | Some user => dict_set user true user_activity_dict
  | None => user_activity_dict            (* except KeyError: pass *)
  end.

Definition aggregate_activity (history : list message) (users : dict user_info)
  : dict bool :=
  fold_left record_message history (init_activity users).

(** ** Report Formatter *)

Definition make_introduction (input_channel : dict string) (n_days : Z) : result string :=
  cname <- getitem "channel_name" input_channel ;;
  Return ("Who's NOT present in the last " ++ format_int n_days
          ++ " days on #" ++ cname ++ "?").

(** [active_users[user_id] == False] for a key of [active_users]. *)
Definition is_False (active_users : dict bool) (uid : string) : bool :=
  match dict_get uid active_users with
  | Some false => true
  | _ => false
  end.

Definition non_posters (active_users : dict bool) : list string :=
  filter (is_False active_users) (dict_keys active_users).

(** The separator [', \n'] of the list of absent users. *)
Definition conclusion_separator : string := ", " ++ nl.

Definition tag_item (users : dict user_info) (uid : string) : result string :=
  info <- getitem uid users ;;
  Return (format_user_for_text uid info).

Definition make_conclusion (active_users : dict bool) (users : dict user_info)
  : result string :=
  let np := non_posters active_users in
  if Nat.eqb (List.length np) 0 then Return "Go team!"
  else
    tag_items <- rmap (tag_item users) np ;;
    Return (String.concat conclusion_separator tag_items).

(** ** Effects *)

(** The float that the true division [num / den] of two integers
    returns, kept as the quotient it rounds. *)
Inductive pyfloat : Type := TrueDiv (num den : Z).

(** Objects handed to [print] and to the remote call. *)
Inductive pyobj : Type :=
| PStr (s : string)
| PInt (n : Z)
| PFloat (f : pyfloat)
| PUser (info : user_info).

Inductive event : Type :=
| Print (args : list pyobj)                          (* the arguments of a print call *)
| CallSlack (method : string) (params : dict pyobj)  (* slack_api.call_slack *)
| WriteFile (path : string) (content : string).      (* f.write(content) *)

(** A computation logs the events it performs, in order, and then
    returns or raises. *)
Definition M (A : Type) : Type := (list event * result A)%type.

Definition mbind {A B : Type} (c : M A) (f : A -> M B) : M B :=
  match c with
  | (t, Return a) => let (t', r) := f a in ((t ++ t')%list, r)
  | (t, Raise e) => (t, Raise e)
  end.

#[export] Instance Monad_M : Monad M := {
  ret := fun A a => ([], Return a);
  bind := @mbind
}.

Definition lift {A : Type} (r : result A) : M A := ([], r).
Definition emit (e : event) : M unit := ([e], Return tt).
Definition raise {A : Type} (e : exn) : M A := ([], Raise e).

(** [for x in l: body(x)] *)
Fixpoint for_each {A : Type} (l : list A) (body : A -> M unit) : M unit :=
  match l with
  | [] => ret tt
  | x :: rest => body x ;; for_each rest body
  end.

(** What the script takes from outside: the clock, the files, the remote
    service and the library functions whose text it only passes on. *)
Record world : Type := {
  (** [datetime.now()], in microseconds since 0001-01-01 00:00:00 *)
  datetime_now : Z;
  (** [str(x)] of a float *)
  float_str : pyfloat -> string;
  (** the answer of [slack_api.call_slack(method, params)] *)
  slack : string -> dict pyobj -> result response;
  (** [json.dumps(obj, indent=4, sort_keys=True)] *)
  json_dumps : response -> string;
  (** [open(path, 'w')] *)
  open_w : string -> result unit;
  (** [open(path).read()]; the path is [None] when the flag was not given *)
  read_text : option string -> result string;
  (** [str.strip()] *)
  str_strip : string -> string;
  (** the rows of [csv.DictReader(open(path))] *)
  csv_rows : option string -> result (list (dict string))
}.

Definition print (args : list pyobj) : M unit := emit (Print args).

Definition call_slack (w : world) (method : string) (params : dict pyobj)
  : M response :=
  emit (CallSlack method params) ;; lift (slack w method params).

Definition json_pp (w : world) (obj : response) : string :=
  json_dumps w obj.

(** ** Lookback cutoff *)

Definition us_per_day : Z := 86400 * 1000000.

(** [datetime(1970, 1, 1)]: day 719163 of the proleptic Gregorian
    calendar, whose day 1 is 0001-01-01. *)
Definition epoch : Z := (719163 - 1) * us_per_day.

(** One microsecond past [datetime.max] (9999-12-31 23:59:59.999999). *)
Definition datetime_end : Z := 3652059 * us_per_day.

(** [timedelta(days=n)] *)
Definition timedelta_days (n : Z) : result Z :=
  if (Z.abs n <=? 999999999)%Z then Return (n * us_per_day)%Z
  else Raise (ExternalError "OverflowError").

(** [datetime - timedelta] *)
Definition datetime_sub (d td : Z) : result Z :=
  let r := (d - td)%Z in
  if ((0 <=? r) && (r <? datetime_end))%Z then Return r
  else Raise (ExternalError "OverflowError").

Definition timestamp_for_days_ago (w : world) (n_days : Z) : result pyfloat :=
  let now := datetime_now w in
  td <- timedelta_days n_days ;;
  week_ago <- datetime_sub now td ;;
  Return (TrueDiv (week_ago - epoch) 1000000).

(** ** History Fetcher *)

(** The comprehension that ends [get_message_history].  [message['type']]
    is read before the two membership tests. *)
Fixpoint select_messages (messages : list message) : result (list message) :=
  match messages with
  | [] => Return []
  | m :: rest =>
      ty <- getitem "type" m ;;
      if String.eqb ty "message" && dict_mem "user" m && dict_mem "ts" m then
        u <- getitem "user" m ;;
        t <- getitem "ts" m ;;
        out <- select_messages rest ;;
        Return ([("user", u); ("ts", t)] :: out)
      else select_messages rest
  end.

Definition history_dump_path : string := "sensitive/channels.history.json".

(** The parameters of the one request for the channel history; 1000 is
    the largest count the service allows. *)
Definition history_params (token channel_id : string) (ts : pyfloat) : dict pyobj :=
  [("token", PStr token);
   ("channel", PStr channel_id);
   ("oldest", PFloat ts);
   ("count", PInt 1000)].

Definition get_message_history (w : world)
    (token channel_id channel_name : string) (days : Z) : M (list message) :=
  ts <- lift (timestamp_for_days_ago w days) ;;
  print [PStr ("Looking at history of channel " ++ channel_name
               ++ " (" ++ channel_id ++ ") for " ++ format_int days
               ++ " days.  Oldest timestamp requested: " ++ float_str w ts)] ;;
  history_raw <- call_slack w "channels.history"
                   (history_params token channel_id ts) ;;
  lift (open_w w history_dump_path) ;;
  emit (WriteFile history_dump_path (json_pp w history_raw)) ;;
  field <- lift (getitem "messages" history_raw) ;;
  messages <- lift (iter_messages field) ;;
  lift (select_messages messages).

(** ** Publishing *)

Definition post_message (w : world) (token channel text bot_name : string) : M unit :=
  raise (A := unit) (Exception "TRIED TO POST A MESSAGE TO SLACK!") ;;
  call_slack w "chat.postMessage"
    [("token", PStr token);
     ("channel", PStr channel);
     ("text", PStr text);
     ("username", PStr bot_name)] ;;
  ret tt.

(** An event is a publication when it calls the message-post endpoint. *)
Definition is_publish (e : event) : bool :=
  match e with
  | CallSlack method _ => String.eqb method "chat.postMessage"
  | _ => false
  end.

(** ** Config Loader *)

(** The namespace returned by [parse_command_line]. *)
Record cli_args : Type := {
  token_file : option string;
  input_channel_file : option string;
  output_channel_file : option string;
  user_file : option string;
  num_days : Z;
  dry_run : bool
}.

(** [next(rows)] *)
Definition next {A : Type} (rows : list A) : result A :=
  match rows with
  | r :: _ => Return r
  | [] => Raise StopIteration
  end.

(** The dict comprehension that builds the roster: a later row with the
    same [user_id] replaces the record and keeps the key's position. *)
Fixpoint roster_of_rows (rows : list (dict string)) (acc : dict user_info)
  : result (dict user_info) :=
  match rows with
  | [] => Return acc
  | user :: rest =>
      key <- getitem "user_id" user ;;
      uname <- getitem "user_name" user ;;
      rname <- getitem "real_name" user ;;
      uid <- getitem "user_id" user ;;
      roster_of_rows rest (dict_set key (mk_user_info uname rname uid) acc)
  end.

Definition read_config_files (w : world) (args : cli_args)
  : result (string * dict string * dict string * dict user_info) :=
  text <- read_text w (token_file args) ;;
  let token := str_strip w text in
  in_rows <- csv_rows w (input_channel_file args) ;;
  input_channel <- next in_rows ;;
  out_rows <- csv_rows w (output_channel_file args) ;;
  output_channel <- next out_rows ;;
  user_rows <- csv_rows w (user_file args) ;;
  users <- roster_of_rows user_rows [] ;;
  Return (token, input_channel, output_channel, users).

(** ** Debug ranking *)

(** [Counter(iterable)]: counts in order of first appearance. *)
Definition count_one (c : dict Z) (k : string) : dict Z :=
  match dict_get k c with
  | Some n => dict_set k (n + 1)%Z c
  | None => dict_set k 1%Z c
  end.

Definition Counter (l : list string) : dict Z := fold_left count_one l [].

(** [sorted(items, key=itemgetter(1), reverse=True)]: a stable sort, so
    entries with equal counts keep their order. *)
Fixpoint insert_desc (x : string * Z) (l : list (string * Z)) : list (string * Z) :=
  match l with
  | [] => [x]
  | y :: rest =>
      if (snd y <? snd x)%Z then x :: y :: rest
      else y :: insert_desc x rest
  end.

Definition most_common (c : dict Z) : list (string * Z) :=
  fold_left (fun acc x => insert_desc x acc) c [].

(** ** Orchestrator *)

(** ['\n'.join([introduction, conclusion])] *)
Definition full_message (introduction conclusion : string) : string :=
  String.concat nl [introduction; conclusion].

Definition print_ranking (users : dict user_info) (e : string * Z) : M unit :=
  if dict_mem (fst e) users then
    info <- lift (getitem (fst e) users) ;;
    print [PStr (real_name info); PInt (snd e); PUser info]
  else ret tt.

Definition run (w : world) (args : cli_args) : M unit :=
  let dry := dry_run args in
  let n_days := num_days args in
  cfg <- lift (read_config_files w args) ;;
  let '(token, input_channel, output_channel, users) := cfg in
  channel_id <- lift (getitem "channel_id" input_channel) ;;
  channel_name <- lift (getitem "channel_name" input_channel) ;;
  message_history <- get_message_history w token channel_id channel_name n_days ;;
  let active_users := aggregate_activity message_history users in
  introduction <- lift (make_introduction input_channel n_days) ;;
  posters <- lift (rmap (getitem "user") message_history) ;;
  let counter := Counter posters in
  print [PStr (nl ++ "MOST ACTIVE: (for debug purposes)")] ;;
  for_each (most_common counter) (print_ranking users) ;;
  print [PStr (nl ++ nl)] ;;
  conclusion <- lift (make_conclusion active_users users) ;;
  let message_text := full_message introduction conclusion in
  if dry then print [PStr message_text]
  else print [PStr message_text].

(** The same invocation with another value of the [-r] flag. *)
Definition with_dry_run (b : bool) (args : cli_args) : cli_args :=
  {| token_file := token_file args;
     input_channel_file := input_channel_file args;
     output_channel_file := output_channel_file args;
     user_file := user_file args;
     num_days := num_days args;
     dry_run := b |}.

(** ** Vocabulary of the statements *)

(** [m] is a message of user [k]. *)
Definition posted_by (k : string) (m : message) : bool :=
  match dict_get "user" m with
  | Some u => String.eqb k u
  | None => false
  end.

(** [k] has at least one message in [history]. *)
Definition has_posted (k : string) (history : list message) : bool :=
  existsb (posted_by k) history.

(** The users marked absent by a presence map: the keys of its [False]
    entries, in the order of the map. *)
Definition absent_users (presence : dict bool) : list string :=
  map fst (filter (fun kv => negb (snd kv)) presence).

(** [s] is the text ["real_name (user_name)"] of the roster entry of [k]. *)
Definition rendered (users : dict user_info) (k : string) (s : string) : Prop :=
  exists info, dict_get k users = Some info /\
               s = real_name info ++ " (" ++ user_name info ++ ")".

(** A record of the raw response is kept when its type is [message] and
    it has both a [user] and a [ts] field. *)
Definition well_formed_message (m : message) : bool :=
  match dict_get "type" m, dict_get "user" m, dict_get "ts" m with
  | Some ty, Some _, Some _ => String.eqb ty "message"
  | _, _, _ => false
  end.

(** The [Message] record made from a raw record that has both fields. *)
Definition project_message (m : message) : message :=
  match dict_get "user" m, dict_get "ts" m with
  | Some u, Some t => [("user", u); ("ts", t)]
  | _, _ => []
  end.

(** ** Sample data *)

Definition sample_alice : user_info := mk_user_info "alice" "Alice" "u1".
Definition sample_bob : user_info := mk_user_info "bob" "Bob" "u2".
Definition sample_roster : dict user_info :=
  [("u1", sample_alice); ("u2", sample_bob)].
Definition sample_message (uid ts : string) : message :=
  [("user", uid); ("ts", ts)].

(** A history in which [u1] posts twice, the untracked [u7] once and
    [u2] once; one record is a join notice and one has no user. *)
Definition sample_response : response :=
  [("ok", JBool true);
   ("messages",
    JMessages
      [[("type", "message"); ("user", "u1"); ("ts", "3"); ("text", "hi")];
       [("type", "message"); ("user", "u1"); ("ts", "4")];
       [("type", "channel_join"); ("user", "u3"); ("ts", "5")];
       [("type", "message"); ("ts", "6")];
       [("type", "message"); ("user", "u7"); ("ts", "7")];
       [("type", "message"); ("user", "u2"); ("ts", "8")]]);
   ("has_more", JBool false)].

Definition sample_user_rows : list (dict string) :=
  [[("user_id", "u1"); ("user_name", "alice"); ("real_name", "Alice")];
   [("user_id", "u2"); ("user_name", "bob"); ("real_name", "Bob")];
   [("user_id", "u3"); ("user_name", "carol"); ("real_name", "Carol")]].

Definition sample_world_with (resp : response) : world :=
  {| datetime_now := 739000 * us_per_day + 5;
     float_str := fun _ => "1713398400.000005";
     slack := fun _ _ => Return resp;
     json_dumps := fun _ => "{}";
     open_w := fun _ => Return tt;
     read_text := fun _ => Return "xoxp-token";
     str_strip := fun t => t;
     csv_rows := fun path =>
       match path with
       | Some "users.csv" => Return sample_user_rows
       | Some _ => Return [[("channel_id", "C1"); ("channel_name", "standup")]]
       | None => Raise (ExternalError "TypeError")
       end |}.

Definition sample_world : world := sample_world_with sample_response.

(** A response with a record that has no [type] field. *)
Definition sample_untyped_response : response :=
  [("ok", JBool true);
   ("messages",
    JMessages
      [[("type", "message"); ("user", "u1"); ("ts", "3")];
       [("user", "u2"); ("ts", "4")]])].

Definition sample_args : cli_args :=
  {| token_file := Some "token.txt";
     input_channel_file := Some "in.csv";
     output_channel_file := Some "out.csv";
     user_file := Some "users.csv";
     num_days := 7;
     dry_run := false |}.

(** A computation that publishes nothing. *)
Definition quiet {A : Type} (c : M A) : Prop :=
  Forall (fun e => is_publish e = false) (fst c).

(** ** Vocabulary of the further statements *)

(** The posters that are not in [seen], in the order in which they first
    appear in the history. *)
Fixpoint first_seen (seen : list string) (history : list message) : list string :=
  match history with
  | [] => []
  | m :: rest =>
      match dict_get "user" m with
      | Some u =>
          if existsb (String.eqb u) seen then first_seen seen rest
          else u :: first_seen (seen ++ [u])%list rest
      | None => first_seen seen rest
      end
  end.

(** The roster entries of the users without a message in the history,
    in roster order. *)
Definition absentees (history : list message) (users : dict user_info)
  : list (string * user_info) :=
  filter (fun kv => negb (has_posted (fst kv) history)) users.

(** The text of a roster entry in the conclusion. *)
Definition entry_text (kv : string * user_info) : string :=
  real_name (snd kv) ++ " (" ++ user_name (snd kv) ++ ")".

(** The progress line that [get_message_history] prints first. *)
Definition progress_line (w : world) (channel_id channel_name : string)
    (days : Z) (ts : pyfloat) : string :=
  "Looking at history of channel " ++ channel_name
  ++ " (" ++ channel_id ++ ") for " ++ format_int days
  ++ " days.  Oldest timestamp requested: " ++ float_str w ts.

(** A record as the fetcher returns it: the two fields [user] and [ts],
    in this order, and nothing else. *)
Definition is_fetched_record (m : message) : Prop :=
  exists u t, m = [("user", u); ("ts", t)].

(** The users of the messages of a history, in order. *)
Definition history_users (history : list message) : list string :=
  flat_map (fun m => match dict_get "user" m with
                     | Some u => [u]
                     | None => []
                     end) history.

(** The lines of the debug ranking: one for each entry whose user is in
    the roster. *)
Definition ranking_events (users : dict user_info) (entries : list (string * Z))
  : list event :=
  flat_map (fun e => match dict_get (fst e) users with
                     | Some info =>
                         [Print [PStr (real_name info); PInt (snd e); PUser info]]
                     | None => []
                     end) entries.

(** The events of a run after the history was fetched. *)
Definition report_events (users : dict user_info) (history : list message)
    (introduction conclusion : string) : list event :=
  (Print [PStr (nl ++ "MOST ACTIVE: (for debug purposes)")]
   :: ranking_events users (most_common (Counter (history_users history)))
   ++ [Print [PStr (nl ++ nl)];
       Print [PStr (full_message introduction conclusion)]])%list.

(** The roster entry made from a row of the user file that has the
    three columns. *)
Definition record_of_row (row : dict string) : option user_info :=
  match dict_get "user_name" row, dict_get "real_name" row,
        dict_get "user_id" row with
  | Some uname, Some rname, Some uid => Some (mk_user_info uname rname uid)
  | _, _, _ => None
  end.

(** [row] is a row of the user [k]. *)
Definition is_row_of (k : string) (row : dict string) : bool :=
  match dict_get "user_id" row with
  | Some uid => String.eqb k uid
  | None => false
  end.

(** * Properties *)

(** ** Dictionaries *)

Section DictFacts.
Context {V : Type}.
Implicit Types (d : dict V) (k : string) (v : V).

Lemma dict_get_set_same k v d : dict_get k (dict_set k v d) = Some v.
Proof.
  induction d as [|[k' v'] d IH]; simpl.
  - now rewrite String.eqb_refl.
  - destruct (String.eqb k k') eqn:E; simpl; rewrite E; auto.
Qed.

Lemma dict_get_set_other k k' v d :
  k <> k' -> dict_get k (dict_set k' v d) = dict_get k d.
Proof.
  intros Hne. induction d as [|[k0 v0] d IH]; simpl.
  - apply String.eqb_neq in Hne. now rewrite Hne.
  - destruct (String.eqb k' k0) eqn:E; simpl.
    + apply String.eqb_eq in E; subst k0.
      apply String.eqb_neq in Hne. now rewrite Hne.
    + now rewrite IH.
Qed.

Lemma dict_get_set k k' v d :
  dict_get k (dict_set k' v d) = if String.eqb k k' then Some v else dict_get k d.
Proof.
  destruct (String.eqb_spec k k') as [->|Hne].
  - apply dict_get_set_same.
  - now apply dict_get_set_other.
Qed.

Lemma dict_get_None k d : dict_get k d = None <-> ~ In k (dict_keys d).
Proof.
  induction d as [|[k' v'] d IH]; simpl.
  - tauto.
  - destruct (String.eqb_spec k k') as [->|Hne].
    + split; [discriminate | intros H; exfalso; apply H; now left].
    + rewrite IH. split; [intros H [E|HI]; [congruence | tauto] | tauto].
Qed.

Lemma dict_mem_In k d : dict_mem k d = true <-> In k (dict_keys d).
Proof.
  unfold dict_mem. destruct (dict_get k d) eqn:E.
  - split; [intros _ | reflexivity].
    destruct (in_dec string_dec k (dict_keys d)) as [HI|HN]; [exact HI|].
    apply dict_get_None in HN. congruence.
  - split; [discriminate|]. intros HI. apply dict_get_None in E. contradiction.
Qed.

Lemma dict_get_Some_In k v d : dict_get k d = Some v -> In (k, v) d.
Proof.
  induction d as [|[k' v'] d IH]; simpl; [discriminate|].
  destruct (String.eqb_spec k k') as [->|Hne].
  - intros [= ->]. now left.
  - intros H. right. auto.
Qed.

Lemma dict_get_In_wf k v d : dict_wf d -> In (k, v) d -> dict_get k d = Some v.
Proof.
  unfold dict_wf. induction d as [|[k' v'] d IH]; simpl; [tauto|].
  intros Hnd [E|HI].
  - injection E as -> ->. now rewrite String.eqb_refl.
  - inversion Hnd as [|? ? Hnot Hnd']; subst.
    destruct (String.eqb_spec k k') as [->|Hne].
    + exfalso. apply Hnot. change k' with (fst (k', v)). now apply in_map.
    + auto.
Qed.

Lemma dict_keys_set_In k k' v d :
  In k (dict_keys (dict_set k' v d)) <-> k = k' \/ In k (dict_keys d).
Proof.
  rewrite <- !dict_mem_In. unfold dict_mem. rewrite dict_get_set.
  destruct (String.eqb_spec k k') as [->|Hne].
  - tauto.
  - destruct (dict_get k d); intuition congruence.
Qed.

Lemma dict_wf_set k v d : dict_wf d -> dict_wf (dict_set k v d).
Proof.
  unfold dict_wf. induction d as [|[k' v'] d IH]; simpl.
  - intros _. constructor; [simpl; tauto | constructor].
  - intros Hnd. inversion Hnd as [|? ? Hnot Hnd']; subst.
    destruct (String.eqb_spec k k') as [->|Hne]; simpl.
    + now constructor.
    + constructor; [|auto].
      intros HI. apply (dict_keys_set_In k' k v d) in HI.
      destruct HI as [E|HI]; [congruence | contradiction].
Qed.

Lemma dict_wf_nil : dict_wf (@nil (string * V)).
Proof. constructor. Qed.
End DictFacts.

(** Two dicts with distinct keys that answer every lookup alike are
    equal in the sense of [==]. *)
Lemma dict_eqb_of_lookup (a b : dict bool) :
  dict_wf a -> dict_wf b ->
  (forall k, dict_get k a = dict_get k b) ->
  dict_eqb Bool.eqb a b = true.
Proof.
  intros Ha Hb Hget. unfold dict_eqb. apply andb_true_intro. split.
  - apply Nat.eqb_eq.
    rewrite <- (length_map fst a), <- (length_map fst b).
    apply Permutation_length. apply NoDup_Permutation; [exact Ha | exact Hb |].
    intros k. fold (dict_keys a) (dict_keys b).
    rewrite <- !dict_mem_In. unfold dict_mem. now rewrite Hget.
  - apply forallb_forall. intros [k v] HI. simpl.
    rewrite <- Hget, (dict_get_In_wf k v a Ha HI).
    apply Bool.eqb_reflx.
Qed.

(** ** Presence Aggregator *)

Lemma existsb_eqb_In (k : string) (l : list string) :
  existsb (String.eqb k) l = true <-> In k l.
Proof.
  rewrite existsb_exists. split.
  - intros [x [HI E]]. apply String.eqb_eq in E. now subst.
  - intros HI. exists k. split; [exact HI | apply String.eqb_refl].
Qed.

Lemma init_fold_get (l : list string) (acc : dict bool) (k : string) :
  dict_get k (fold_left (fun d uid => dict_set uid false d) l acc)
  = if existsb (String.eqb k) l then Some false else dict_get k acc.
Proof.
  revert acc. induction l as [|u l IH]; intros acc; simpl; [reflexivity|].
  rewrite IH, dict_get_set.
  destruct (String.eqb k u); simpl; [|reflexivity].
  now destruct (existsb (String.eqb k) l).
Qed.

Lemma init_activity_get (users : dict user_info) (k : string) :
  dict_get k (init_activity users)
  = if dict_mem k users then Some false else None.
Proof.
  unfold init_activity. rewrite init_fold_get. simpl.
  destruct (dict_mem k users) eqn:E.
  - apply dict_mem_In, existsb_eqb_In in E. now rewrite E.
  - destruct (existsb (String.eqb k) (dict_keys users)) eqn:E'; [|reflexivity].
    apply existsb_eqb_In, dict_mem_In in E'. congruence.
Qed.

Lemma record_message_get (d : dict bool) (m : message) (k : string) :
  dict_get k (record_message d m)
  = if posted_by k m then Some true else dict_get k d.
Proof.
  unfold record_message, posted_by.
  destruct (dict_get "user" m) as [u|]; [apply dict_get_set | reflexivity].
Qed.

Lemma record_fold_get (history : list message) (d : dict bool) (k : string) :
  dict_get k (fold_left record_message history d)
  = if has_posted k history then Some true else dict_get k d.
Proof.
  revert d. induction history as [|m h IH]; intros d; simpl; [reflexivity|].
  rewrite IH, record_message_get.
  destruct (posted_by k m); simpl; [|reflexivity].
  now destruct (has_posted k h).
Qed.

(** Every lookup in the result of [aggregate_activity]. *)
Lemma aggregate_activity_get (history : list message) (users : dict user_info)
    (k : string) :
  dict_get k (aggregate_activity history users)
  = if has_posted k history then Some true
    else if dict_mem k users then Some false else None.
Proof.
  unfold aggregate_activity. now rewrite record_fold_get, init_activity_get.
Qed.

Lemma has_posted_true (k : string) (history : list message) :
  has_posted k history = true <->
  exists m, In m history /\ dict_get "user" m = Some k.
Proof.
  unfold has_posted. rewrite existsb_exists.
  split; intros [m [HI H]]; exists m; (split; [exact HI|]).
  - unfold posted_by in H. destruct (dict_get "user" m) as [u|]; [|discriminate].
    apply String.eqb_eq in H. now subst.
  - unfold posted_by. rewrite H. apply String.eqb_refl.
Qed.

Lemma has_posted_false (k : string) (history : list message) :
  has_posted k history = false <->
  forall m, In m history -> dict_get "user" m <> Some k.
Proof.
  split.
  - intros Hf m HI Hu.
    assert (has_posted k history = true) by (apply has_posted_true; eauto).
    congruence.
  - intros Hall. destruct (has_posted k history) eqn:E; [|reflexivity].
    apply has_posted_true in E. destruct E as [m [HI Hu]].
    exfalso. exact (Hall m HI Hu).
Qed.

Lemma has_posted_Permutation (k : string) (h1 h2 : list message) :
  Permutation h1 h2 -> has_posted k h1 = has_posted k h2.
Proof.
  unfold has_posted. induction 1 as [|m l l' _ IH|m m' l|l l' l'' _ IH1 _ IH2]; simpl.
  - reflexivity.
  - now rewrite IH.
  - now rewrite !orb_assoc, (orb_comm (posted_by k m')).
  - congruence.
Qed.

Lemma init_activity_wf (users : dict user_info) : dict_wf (init_activity users).
Proof.
  unfold init_activity.
  assert (G : forall l (acc : dict bool), dict_wf acc ->
            dict_wf (fold_left (fun d uid => dict_set uid false d) l acc)).
  { induction l as [|u l IH]; intros acc Hacc; simpl; [exact Hacc|].
    apply IH. now apply dict_wf_set. }
  apply G. apply dict_wf_nil.
Qed.

Lemma aggregate_activity_wf (history : list message) (users : dict user_info) :
  dict_wf (aggregate_activity history users).
Proof.
  unfold aggregate_activity. generalize (init_activity_wf users).
  generalize (init_activity users).
  induction history as [|m h IH]; intros d Hd; simpl; [exact Hd|].
  apply IH. unfold record_message.
  destruct (dict_get "user" m); [now apply dict_wf_set | exact Hd].
Qed.

(** The keys of the result: the roster's keys and every poster. *)
Lemma aggregate_activity_keys (history : list message) (users : dict user_info)
    (k : string) :
  In k (dict_keys (aggregate_activity history users)) <->
  In k (dict_keys users) \/ has_posted k history = true.
Proof.
  rewrite <- !dict_mem_In. unfold dict_mem at 1.
  rewrite aggregate_activity_get.
  destruct (has_posted k history); [tauto|].
  destruct (dict_mem k users); intuition congruence.
Qed.

(** C1 (at a message of an untracked account): with the roster
    [{u1, u2}] and one message of [u9], [aggregate_activity] returns a map
    with the third key [u9], set to [True]; its keys are not the roster's
    keys.  The message raises no error. *)
Theorem aggregate_activity_untracked_poster :
  aggregate_activity [sample_message "u9" "1"] sample_roster
  = [("u1", false); ("u2", false); ("u9", true)] /\
  dict_keys (aggregate_activity [sample_message "u9" "1"] sample_roster)
  <> dict_keys sample_roster /\
  dict_mem "u9" sample_roster = false.
Proof.
  split; [reflexivity|]. split; [|reflexivity].
  vm_compute. discriminate.
Qed.

(** C2: a roster user with no message in the history is mapped to
    [False], a roster user with at least one message is mapped to [True]. *)
Theorem aggregate_activity_presence (history : list message)
    (users : dict user_info) (k : string) :
  In k (dict_keys users) ->
  ((forall m, In m history -> dict_get "user" m <> Some k) ->
   dict_get k (aggregate_activity history users) = Some false) /\
  ((exists m, In m history /\ dict_get "user" m = Some k) ->
   dict_get k (aggregate_activity history users) = Some true).
Proof.
  intros Hk. apply dict_mem_In in Hk. rewrite aggregate_activity_get, Hk.
  split.
  - intros Hnone. apply has_posted_false in Hnone. now rewrite Hnone.
  - intros Hsome. apply has_posted_true in Hsome. now rewrite Hsome.
Qed.

Lemma aggregate_activity_presence_witness :
  dict_get "u2" (aggregate_activity [sample_message "u1" "1"] sample_roster)
  = Some false /\
  dict_get "u1" (aggregate_activity [sample_message "u1" "1"] sample_roster)
  = Some true.
Proof.
  split.
  - apply (aggregate_activity_presence [sample_message "u1" "1"] sample_roster "u2").
    + simpl. right. left. reflexivity.
    + intros m [<-|[]]. simpl. discriminate.
  - apply (aggregate_activity_presence [sample_message "u1" "1"] sample_roster "u1").
    + simpl. left. reflexivity.
    + exists (sample_message "u1" "1"). split; [left|]; reflexivity.
Defined.

(** A message seen again changes nothing: the fold is idempotent. *)
Lemma dict_set_same {V : Type} (k : string) (v : V) (d : dict V) :
  dict_get k d = Some v -> dict_set k v d = d.
Proof.
  induction d as [|[k' v'] d IH]; simpl; [discriminate|].
  destruct (String.eqb k k'); [now intros [= ->] | intros H; now rewrite IH].
Qed.

Lemma record_message_idempotent (d : dict bool) (m : message) :
  record_message (record_message d m) m = record_message d m.
Proof.
  unfold record_message. destruct (dict_get "user" m) as [u|]; [|reflexivity].
  apply dict_set_same, dict_get_set_same.
Qed.

Lemma record_fold_fixed (history : list message) (d : dict bool) :
  (forall m u, In m history -> dict_get "user" m = Some u ->
               dict_get u d = Some true) ->
  fold_left record_message history d = d.
Proof.
  induction history as [|m h IH]; intros Hd; simpl; [reflexivity|].
  assert (Hm : record_message d m = d).
  { unfold record_message. destruct (dict_get "user" m) as [u|] eqn:E; [|reflexivity].
    apply dict_set_same. apply (Hd m u); [now left | exact E]. }
  rewrite Hm. apply IH. intros m' u HI. apply Hd. now right.
Qed.

Lemma aggregate_activity_idempotent (history : list message)
    (users : dict user_info) :
  aggregate_activity (history ++ history) users = aggregate_activity history users.
Proof.
  unfold aggregate_activity. rewrite fold_left_app.
  apply record_fold_fixed. intros m u HI Hu.
  rewrite record_fold_get.
  assert (Hp : has_posted u history = true) by (apply has_posted_true; eauto).
  now rewrite Hp.
Qed.

(** C3: the result does not depend on the order of the messages: for
    two histories that are permutations of each other the two maps are
    equal as dicts ([==]) and answer every lookup alike; and going through
    the same messages once more leaves the map as it is. *)
Theorem aggregate_activity_permutation (h1 h2 : list message)
    (users : dict user_info) :
  Permutation h1 h2 ->
  dict_eqb Bool.eqb (aggregate_activity h1 users) (aggregate_activity h2 users)
  = true /\
  (forall k, dict_get k (aggregate_activity h1 users)
             = dict_get k (aggregate_activity h2 users)) /\
  aggregate_activity (h1 ++ h1) users = aggregate_activity h1 users.
Proof.
  intros Hperm.
  assert (Hget : forall k, dict_get k (aggregate_activity h1 users)
                           = dict_get k (aggregate_activity h2 users)).
  { intros k. rewrite !aggregate_activity_get.
    now rewrite (has_posted_Permutation k h1 h2 Hperm). }
  split; [|split; [exact Hget | apply aggregate_activity_idempotent]].
  apply dict_eqb_of_lookup; auto using aggregate_activity_wf.
Qed.

Lemma aggregate_activity_permutation_witness :
  dict_eqb Bool.eqb
    (aggregate_activity [sample_message "u2" "1"; sample_message "u9" "2"]
       sample_roster)
    (aggregate_activity [sample_message "u9" "2"; sample_message "u2" "1"]
       sample_roster)
  = true.
Proof.
  apply (aggregate_activity_permutation
           [sample_message "u2" "1"; sample_message "u9" "2"]
           [sample_message "u9" "2"; sample_message "u2" "1"] sample_roster).
  apply perm_swap.
Defined.

(** ** Report Formatter *)

Lemma is_False_absent (presence : dict bool) :
  dict_wf presence -> non_posters presence = absent_users presence.
Proof.
  unfold non_posters, absent_users, dict_keys.
  intros Hwf.
  assert (G : forall l : dict bool,
            (forall k v, In (k, v) l -> dict_get k presence = Some v) ->
            filter (is_False presence) (map fst l)
            = map fst (filter (fun kv => negb (snd kv)) l)).
  { induction l as [|[k v] l IH]; intros Hl; simpl; [reflexivity|].
    unfold is_False at 1. rewrite (Hl k v (or_introl eq_refl)).
    rewrite IH by (intros; apply Hl; now right).
    now destruct v. }
  apply G. intros k v. now apply dict_get_In_wf.
Qed.

Lemma absent_users_In (presence : dict bool) (k : string) :
  In k (absent_users presence) <-> In (k, false) presence.
Proof.
  unfold absent_users. rewrite in_map_iff. split.
  - intros [[k' v] [E HI]]. simpl in E. subst k'.
    apply filter_In in HI. destruct HI as [HI Hv]. simpl in Hv.
    destruct v; [discriminate | exact HI].
  - intros HI. exists (k, false). split; [reflexivity|].
    apply filter_In. now split.
Qed.

Lemma non_posters_In (presence : dict bool) (k : string) :
  In k (non_posters presence) -> dict_get k presence = Some false.
Proof.
  unfold non_posters. intros HI. apply filter_In in HI. destruct HI as [_ H].
  unfold is_False in H. now destruct (dict_get k presence) as [[|]|].
Qed.

Lemma rmap_tag_items (users : dict user_info) (l : list string) :
  (forall k, In k l -> In k (dict_keys users)) ->
  exists items, Forall2 (rendered users) l items /\
                rmap (tag_item users) l = Return items.
Proof.
  induction l as [|k l IH]; intros Hl.
  - exists []. split; [constructor | reflexivity].
  - destruct IH as [items [HF Hr]]; [intros; apply Hl; now right|].
    assert (Hk : In k (dict_keys users)) by (apply Hl; now left).
    apply dict_mem_In in Hk. unfold dict_mem in Hk.
    destruct (dict_get k users) as [info|] eqn:E; [|discriminate].
    exists (format_user_for_text k info :: items). split.
    + constructor; [|exact HF]. exists info. now split.
    + simpl. unfold tag_item at 1, getitem. rewrite E. simpl. now rewrite Hr.
Qed.

Lemma make_conclusion_none_absent (presence : dict bool) (users : dict user_info) :
  non_posters presence = [] -> make_conclusion presence users = Return "Go team!".
Proof. unfold make_conclusion. now intros ->. Qed.

Lemma make_conclusion_some_absent (presence : dict bool) (users : dict user_info) :
  non_posters presence <> [] ->
  (forall k, In k (non_posters presence) -> In k (dict_keys users)) ->
  exists items,
    Forall2 (rendered users) (non_posters presence) items /\
    make_conclusion presence users
    = Return (String.concat conclusion_separator items).
Proof.
  intros Hne Hcov. destruct (rmap_tag_items users _ Hcov) as [items [HF Hr]].
  exists items. split; [exact HF|].
  unfold make_conclusion. destruct (non_posters presence) as [|k l]; [congruence|].
  simpl List.length. simpl Nat.eqb. cbv iota. now rewrite Hr.
Qed.

(** C4: when no entry of the presence map is [False] the conclusion is
    the fixed congratulation; otherwise it is the texts
    ["real_name (user_name)"] of exactly the users whose entry is [False],
    in the order of the map, joined by a comma, a space and a newline. *)
Theorem make_conclusion_report (presence : dict bool) (users : dict user_info) :
  dict_wf presence ->
  (forall k, In (k, false) presence -> In k (dict_keys users)) ->
  ((forall k, ~ In (k, false) presence) ->
   make_conclusion presence users = Return "Go team!") /\
  ((exists k, In (k, false) presence) ->
   exists items,
     Forall2 (rendered users) (absent_users presence) items /\
     make_conclusion presence users = Return (String.concat (", " ++ nl) items)).
Proof.
  intros Hwf Hcov. rewrite <- (is_False_absent presence Hwf). split.
  - intros Hnone. apply make_conclusion_none_absent.
    destruct (non_posters presence) as [|k l] eqn:E; [reflexivity|].
    exfalso. apply (Hnone k). apply absent_users_In.
    rewrite <- (is_False_absent presence Hwf), E. now left.
  - intros [k Hk].
    apply make_conclusion_some_absent.
    + apply absent_users_In in Hk.
      rewrite <- (is_False_absent presence Hwf) in Hk.
      intros E. rewrite E in Hk. contradiction.
    + intros k' Hk'. apply Hcov. apply absent_users_In.
      now rewrite <- (is_False_absent presence Hwf).
Qed.

Lemma make_conclusion_report_witness :
  ((forall k, ~ In (k, false) [("u1", true); ("u2", false)]) ->
   make_conclusion [("u1", true); ("u2", false)] sample_roster
   = Return "Go team!") /\
  ((exists k, In (k, false) [("u1", true); ("u2", false)]) ->
   exists items,
     Forall2 (rendered sample_roster)
       (absent_users [("u1", true); ("u2", false)]) items /\
     make_conclusion [("u1", true); ("u2", false)] sample_roster
     = Return (String.concat (", " ++ nl) items)).
Proof.
  apply (make_conclusion_report [("u1", true); ("u2", false)] sample_roster).
  - unfold dict_wf. simpl. repeat constructor; simpl; intuition discriminate.
  - intros k [H|[H|[]]]; inversion H; subst. simpl. right. left. reflexivity.
Defined.

(** The two end-to-end runs of the formatter on an aggregated history. *)
Example conclusion_one_absent :
  aggregate_activity [sample_message "u1" "1"] sample_roster
  = [("u1", true); ("u2", false)] /\
  make_conclusion (aggregate_activity [sample_message "u1" "1"] sample_roster)
    sample_roster = Return "Bob (bob)".
Proof. split; reflexivity. Qed.

Example conclusion_all_present :
  make_conclusion
    (aggregate_activity [sample_message "u1" "1"] [("u1", sample_alice)])
    [("u1", sample_alice)] = Return "Go team!".
Proof. reflexivity. Qed.

(** C10: every user that [aggregate_activity] maps to [False] is a key
    of the roster, so [make_conclusion], run on that map and the same
    roster, finds every non-poster in the roster and returns a text. *)
Theorem make_conclusion_after_aggregate (history : list message)
    (users : dict user_info) :
  (forall k, dict_get k (aggregate_activity history users) = Some false ->
             In k (dict_keys users)) /\
  (forall k, In k (non_posters (aggregate_activity history users)) ->
             exists info, getitem k users = Return info) /\
  exists text,
    make_conclusion (aggregate_activity history users) users = Return text.
Proof.
  assert (Hfalse : forall k,
            dict_get k (aggregate_activity history users) = Some false ->
            In k (dict_keys users)).
  { intros k. rewrite aggregate_activity_get.
    destruct (has_posted k history); [discriminate|].
    destruct (dict_mem k users) eqn:E; [|discriminate].
    intros _. now apply dict_mem_In. }
  split; [exact Hfalse|]. split.
  - intros k Hk. apply non_posters_In, Hfalse, dict_mem_In in Hk.
    unfold dict_mem in Hk. unfold getitem.
    destruct (dict_get k users) as [info|]; [now exists info | discriminate].
  - destruct (non_posters (aggregate_activity history users)) as [|k l] eqn:E.
    + exists "Go team!". now apply make_conclusion_none_absent.
    + destruct (make_conclusion_some_absent
                  (aggregate_activity history users) users) as [items [_ Hr]].
      * rewrite E. discriminate.
      * intros k' Hk'. now apply Hfalse, non_posters_In.
      * eauto.
Qed.

(** ** History Fetcher *)

Lemma select_messages_typed (messages : list message) :
  Forall (fun m => dict_mem "type" m = true) messages ->
  select_messages messages
  = Return (map project_message (filter well_formed_message messages)).
Proof.
  induction 1 as [|m l Hm _ IH]; [reflexivity|].
  cbn [select_messages filter]. unfold getitem, dict_mem, well_formed_message in *.
  destruct (dict_get "type" m) as [ty|]; [|discriminate].
  cbn [bind Monad_result rbind].
  destruct (String.eqb ty "message"); cbn [andb].
  - destruct (dict_get "user" m) as [u|] eqn:Eu; [|now destruct (dict_get "ts" m)].
    destruct (dict_get "ts" m) as [t|] eqn:Et; [|exact IH].
    cbn [andb map bind Monad_result rbind]. rewrite IH.
    unfold project_message at 2. now rewrite Eu, Et.
  - destruct (dict_get "user" m), (dict_get "ts" m); exact IH.
Qed.

(** X9: the first record without a [type] field aborts the selection
    with [KeyError], whatever its other fields and whatever follows it. *)
Lemma select_messages_untyped (l1 l2 : list message) (m : message) :
  Forall (fun m => dict_mem "type" m = true) l1 ->
  dict_get "type" m = None ->
  select_messages (l1 ++ m :: l2) = Raise (KeyError "type").
Proof.
  intros Hl1 Hm. induction Hl1 as [|m1 l Hm1 _ IH]; simpl.
  - unfold getitem. now rewrite Hm.
  - unfold getitem, dict_mem in *.
    destruct (dict_get "type" m1) as [ty|]; [|discriminate]. simpl.
    destruct (dict_get "user" m1), (dict_get "ts" m1),
      (String.eqb ty "message"); simpl; rewrite ?IH; auto.
Qed.

(** C6 (as amended): when the response has a [messages] list whose
    records all have a [type] field and the dump file can be opened,
    [get_message_history] returns, in
    the order of the response, the [user] and [ts] fields of exactly the
    records whose type is [message] and that have both fields; all other
    records are dropped.  Before that it has printed the progress line,
    made the one request and written the dump. *)
Theorem get_message_history_selects (w : world)
    (token channel_id channel_name : string) (days : Z)
    (ts : pyfloat) (raw : response) (messages : list message) :
  timestamp_for_days_ago w days = Return ts ->
  slack w "channels.history" (history_params token channel_id ts) = Return raw ->
  open_w w history_dump_path = Return tt ->
  dict_get "messages" raw = Some (JMessages messages) ->
  Forall (fun m => dict_mem "type" m = true) messages ->
  snd (get_message_history w token channel_id channel_name days)
  = Return (map project_message (filter well_formed_message messages)) /\
  exists line,
    fst (get_message_history w token channel_id channel_name days)
    = [Print [PStr line];
       CallSlack "channels.history" (history_params token channel_id ts);
       WriteFile history_dump_path (json_pp w raw)].
Proof.
  intros Hts Hslack Hopen Hmsgs Htyped.
  unfold get_message_history, call_slack, print, emit, lift. simpl.
  rewrite Hts. simpl. rewrite Hslack. simpl. rewrite Hopen. simpl.
  unfold getitem. rewrite Hmsgs. simpl.
  rewrite (select_messages_typed messages Htyped). simpl.
  split; [reflexivity|]. eexists. reflexivity.
Qed.

Lemma get_message_history_selects_witness :
  snd (get_message_history sample_world "xoxp-token" "C1" "standup" 7)
  = Return [[("user", "u1"); ("ts", "3")];
            [("user", "u1"); ("ts", "4")];
            [("user", "u7"); ("ts", "7")];
            [("user", "u2"); ("ts", "8")]].
Proof.
  refine (proj1 (get_message_history_selects sample_world
                   "xoxp-token" "C1" "standup" 7
                   (TrueDiv 1713398400000005 1000000) sample_response
                   _ eq_refl eq_refl eq_refl eq_refl _)).
  repeat constructor.
Defined.

(** C6 (as stated, at a record without a [type] field): the response
    is received, none of its records without a type is an ordinary message,
    and yet [get_message_history] raises [KeyError] instead of returning
    the one well-formed record.  And when the dump file cannot be opened,
    the sample response, whose records all have a type, is not filtered
    either: the error of [open] ends the fetch. *)
Lemma get_message_history_untyped_record :
  slack (sample_world_with sample_untyped_response) "channels.history"
    (history_params "xoxp-token" "C1" (TrueDiv 1713398400000005 1000000))
  = Return sample_untyped_response /\
  dict_get "messages" sample_untyped_response
  = Some (JMessages [[("type", "message"); ("user", "u1"); ("ts", "3")];
                     [("user", "u2"); ("ts", "4")]]) /\
  filter well_formed_message
    [[("type", "message"); ("user", "u1"); ("ts", "3")];
     [("user", "u2"); ("ts", "4")]]
  = [[("type", "message"); ("user", "u1"); ("ts", "3")]] /\
  snd (get_message_history (sample_world_with sample_untyped_response)
         "xoxp-token" "C1" "standup" 7)
  = Raise (KeyError "type") /\
  snd (get_message_history (sample_world_with sample_untyped_response)
         "xoxp-token" "C1" "standup" 7)
  <> Return (map project_message
               (filter well_formed_message
                  [[("type", "message"); ("user", "u1"); ("ts", "3")];
                   [("user", "u2"); ("ts", "4")]])) /\
  snd (get_message_history
         {| datetime_now := datetime_now sample_world;
            float_str := float_str sample_world;
            slack := slack sample_world;
            json_dumps := json_dumps sample_world;
            open_w := fun _ => Raise (ExternalError "FileNotFoundError");
            read_text := read_text sample_world;
            str_strip := str_strip sample_world;
            csv_rows := csv_rows sample_world |}
         "xoxp-token" "C1" "standup" 7)
  = Raise (ExternalError "FileNotFoundError").
Proof. repeat split; discriminate. Qed.

(** ** Publishing *)

(** C7: whatever its arguments, [post_message] raises the guard
    exception without having performed any event: the request to the
    message-post endpoint that follows the [raise] is never made. *)
Theorem post_message_disabled (w : world) (token channel text bot_name : string) :
  post_message w token channel text bot_name
  = ([], Raise (Exception "TRIED TO POST A MESSAGE TO SLACK!")) /\
  quiet (post_message w token channel text bot_name).
Proof. split; [reflexivity | constructor]. Qed.

(** ** Orchestrator *)

Section Quiet.
Context {A B : Type}.

Lemma quiet_bind (c : M A) (f : A -> M B) :
  quiet c -> (forall a, quiet (f a)) -> quiet (bind c f).
Proof.
  unfold quiet. destruct c as [t [a|e]]; simpl; intros Hc Hf; [|exact Hc].
  specialize (Hf a). destruct (f a) as [t' r]. simpl in *.
  apply Forall_app. now split.
Qed.

Lemma quiet_lift (r : result A) : quiet (lift r).
Proof. constructor. Qed.

Lemma quiet_ret (a : A) : quiet (ret (m := M) a).
Proof. constructor. Qed.
End Quiet.

Lemma quiet_print (args : list pyobj) : quiet (print args).
Proof. repeat constructor. Qed.

Lemma quiet_write (path content : string) : quiet (emit (WriteFile path content)).
Proof. repeat constructor. Qed.

Lemma quiet_history_call (w : world) (params : dict pyobj) :
  quiet (call_slack w "channels.history" params).
Proof.
  unfold call_slack. apply quiet_bind; [repeat constructor | intros; apply quiet_lift].
Qed.

Create HintDb quiet.
#[local] Hint Resolve quiet_lift quiet_ret quiet_print quiet_write
  quiet_history_call : quiet.

(** One statement of a sequence: the statement itself publishes nothing,
    and the proof goes on with what follows it. *)
Ltac quiet_seq := apply quiet_bind; [solve [auto with quiet] | intros ?].

Lemma quiet_for_each {A : Type} (l : list A) (body : A -> M unit) :
  (forall x, quiet (body x)) -> quiet (for_each l body).
Proof.
  intros Hbody. induction l as [|x l IH]; simpl; [constructor|].
  apply quiet_bind; auto.
Qed.

Lemma quiet_print_ranking (users : dict user_info) (e : string * Z) :
  quiet (print_ranking users e).
Proof.
  unfold print_ranking. destruct (dict_mem (fst e) users); [quiet_seq|];
    auto with quiet.
Qed.

Lemma quiet_get_message_history (w : world)
    (token channel_id channel_name : string) (days : Z) :
  quiet (get_message_history w token channel_id channel_name days).
Proof. unfold get_message_history. repeat quiet_seq. auto with quiet. Qed.

#[local] Hint Resolve quiet_get_message_history quiet_print_ranking
  quiet_for_each : quiet.

Lemma quiet_run (w : world) (args : cli_args) : quiet (run w args).
Proof.
  unfold run. quiet_seq.
  match goal with
  | cfg : (_ * _)%type |- _ =>
      destruct cfg as [[[token input_channel] output_channel] users]
  end.
  repeat quiet_seq. destruct (dry_run args); auto with quiet.
Qed.

Lemma bind_inv {A B : Type} (c : M A) (f : A -> M B) (tr : list event) (b : B) :
  bind c f = (tr, Return b) ->
  exists t1 a t2,
    c = (t1, Return a) /\ f a = (t2, Return b) /\ tr = (t1 ++ t2)%list.
Proof.
  destruct c as [t1 [a|e]]; simpl; [|discriminate].
  destruct (f a) as [t2 r] eqn:E. intros [= <- ->].
  exists t1, a, t2. auto.
Qed.

Lemma lift_inv {A : Type} (r : result A) (t : list event) (a : A) :
  lift r = (t, Return a) -> r = Return a /\ t = [].
Proof. unfold lift. intros [= <- ->]. auto. Qed.

(** A run that completes ends by printing the report, assembled from
    the introduction and the conclusion of the aggregated history. *)
Lemma run_prints_report (w : world) (args : cli_args) (tr : list event) :
  run w args = (tr, Return tt) ->
  exists pre token input_channel output_channel users
         channel_id channel_name history introduction conclusion,
    read_config_files w args
    = Return (token, input_channel, output_channel, users) /\
    snd (get_message_history w token channel_id channel_name (num_days args))
    = Return history /\
    make_introduction input_channel (num_days args) = Return introduction /\
    make_conclusion (aggregate_activity history users) users
    = Return conclusion /\
    tr = (pre ++ [Print [PStr (full_message introduction conclusion)]])%list.
Proof.
  unfold run. intros H.
  apply bind_inv in H. destruct H as (t0 & cfg & t0' & Hcfg & H & ->).
  apply lift_inv in Hcfg. destruct Hcfg as [Hcfg ->].
  destruct cfg as [[[token input_channel] output_channel] users].
  apply bind_inv in H. destruct H as (t1 & cid & t1' & _ & H & ->).
  apply bind_inv in H. destruct H as (t2 & cname & t2' & _ & H & ->).
  apply bind_inv in H. destruct H as (t3 & history & t3' & Hh & H & ->).
  apply bind_inv in H. destruct H as (t4 & introduction & t4' & Hi & H & ->).
  apply lift_inv in Hi. destruct Hi as [Hi ->].
  apply bind_inv in H. destruct H as (t5 & posters & t5' & _ & H & ->).
  apply bind_inv in H. destruct H as (t6 & ? & t6' & _ & H & ->).
  apply bind_inv in H. destruct H as (t7 & ? & t7' & _ & H & ->).
  apply bind_inv in H. destruct H as (t8 & ? & t8' & _ & H & ->).
  apply bind_inv in H. destruct H as (t9 & conclusion & t9' & Hc & H & ->).
  apply lift_inv in Hc. destruct Hc as [Hc ->].
  assert (Hlast : t9' = [Print [PStr (full_message introduction conclusion)]]).
  { destruct (dry_run args); unfold print, emit in H; congruence. }
  subst t9'.
  exists (t1 ++ t2 ++ t3 ++ t5 ++ t6 ++ t7 ++ t8)%list.
  exists token, input_channel, output_channel, users, cid, cname, history,
         introduction, conclusion.
  repeat split; auto.
  - now rewrite Hh.
  - simpl. rewrite <- !app_assoc. reflexivity.
Qed.

(** C8: two runs that differ only in the [dry_run] flag perform the
    same events and end alike; neither calls the message-post endpoint;
    and with either value of the flag a run that completes has printed
    the report as its last event. *)
Theorem run_ignores_dry_run (w : world) (args : cli_args) (b1 b2 : bool) :
  run w (with_dry_run b1 args) = run w (with_dry_run b2 args) /\
  quiet (run w (with_dry_run b1 args)) /\
  quiet (run w (with_dry_run b2 args)) /\
  forall b tr,
    run w (with_dry_run b args) = (tr, Return tt) ->
    exists pre introduction conclusion,
      tr = (pre ++ [Print [PStr (full_message introduction conclusion)]])%list.
Proof.
  split; [|split; [|split]]; try apply quiet_run.
  - unfold run. cbn [with_dry_run dry_run num_days].
    assert (Hcfg : forall b, read_config_files w (with_dry_run b args)
                             = read_config_files w args) by reflexivity.
    rewrite !Hcfg. destruct b1, b2; reflexivity.
  - intros b tr H. apply run_prints_report in H.
    destruct H as (pre & _ & _ & _ & _ & _ & _ & _ & i & c & _ & _ & _ & _ & ->).
    now exists pre, i, c.
Qed.

(** The sample run: the progress line, the request, the dump, the
    ranking and the report. *)
Example run_sample :
  run sample_world sample_args
  = ([Print [PStr ("Looking at history of channel standup (C1) for 7 days."
                   ++ "  Oldest timestamp requested: 1713398400.000005")];
      CallSlack "channels.history"
        (history_params "xoxp-token" "C1" (TrueDiv 1713398400000005 1000000));
      WriteFile history_dump_path "{}";
      Print [PStr (nl ++ "MOST ACTIVE: (for debug purposes)")];
      Print [PStr "Alice"; PInt 2; PUser sample_alice];
      Print [PStr "Bob"; PInt 1; PUser sample_bob];
      Print [PStr (nl ++ nl)];
      Print [PStr ("Who's NOT present in the last 7 days on #standup?"
                   ++ nl ++ "Carol (carol)")]],
     Return tt).
Proof. reflexivity. Qed.

(** The report is the introduction, one newline, and the conclusion. *)
Theorem full_message_layout (introduction conclusion : string) :
  full_message introduction conclusion = introduction ++ nl ++ conclusion.
Proof. reflexivity. Qed.

(** * Further properties *)

(** ** Presence Aggregator: keys and their order *)

Lemma dict_mem_existsb {V : Type} (k : string) (d : dict V) :
  dict_mem k d = existsb (String.eqb k) (dict_keys d).
Proof.
  destruct (dict_mem k d) eqn:E; symmetry.
  - now apply existsb_eqb_In, dict_mem_In.
  - destruct (existsb (String.eqb k) (dict_keys d)) eqn:E'; [|reflexivity].
    apply existsb_eqb_In, dict_mem_In in E'. congruence.
Qed.

Lemma dict_keys_set {V : Type} (k : string) (v : V) (d : dict V) :
  dict_keys (dict_set k v d)
  = if dict_mem k d then dict_keys d else (dict_keys d ++ [k])%list.
Proof.
  unfold dict_mem. induction d as [|[k' v'] d IH]; simpl; [reflexivity|].
  destruct (String.eqb k k'); simpl; [reflexivity|].
  rewrite IH. now destruct (dict_get k d).
Qed.

Lemma record_fold_keys (history : list message) (d : dict bool) :
  dict_keys (fold_left record_message history d)
  = (dict_keys d ++ first_seen (dict_keys d) history)%list.
Proof.
  revert d. induction history as [|m h IH]; intros d; simpl.
  - now rewrite app_nil_r.
  - rewrite IH. unfold record_message.
    destruct (dict_get "user" m) as [u|]; [|reflexivity].
    rewrite dict_keys_set, dict_mem_existsb.
    destruct (existsb (String.eqb u) (dict_keys d)); [reflexivity|].
    now rewrite <- app_assoc.
Qed.

Lemma init_fold_keys (l : list string) (acc : dict bool) :
  NoDup (dict_keys acc ++ l) ->
  dict_keys (fold_left (fun d uid => dict_set uid false d) l acc)
  = (dict_keys acc ++ l)%list.
Proof.
  revert acc. induction l as [|u l IH]; intros acc Hnd; simpl.
  - now rewrite app_nil_r.
  - assert (Hu : dict_mem u acc = false).
    { destruct (dict_mem u acc) eqn:E; [|reflexivity].
      apply dict_mem_In in E. apply NoDup_remove_2 in Hnd.
      exfalso. apply Hnd. apply in_or_app. now left. }
    assert (Hk : dict_keys (dict_set u false acc) = (dict_keys acc ++ [u])%list).
    { now rewrite dict_keys_set, Hu. }
    rewrite IH; rewrite Hk, <- app_assoc; [reflexivity | exact Hnd].
Qed.

Lemma init_activity_keys (users : dict user_info) :
  dict_wf users -> dict_keys (init_activity users) = dict_keys users.
Proof. intros Hwf. unfold init_activity. now rewrite init_fold_keys. Qed.

Lemma first_seen_posted (history : list message) (seen : list string) (k : string) :
  In k (first_seen seen history) -> has_posted k history = true /\ ~ In k seen.
Proof.
  revert seen. induction history as [|m h IH]; intros seen; simpl; [tauto|].
  unfold posted_by at 1.
  destruct (dict_get "user" m) as [u|]; simpl.
  - destruct (existsb (String.eqb u) seen) eqn:E.
    + intros HI. destruct (IH _ HI) as [Hp Hs]. rewrite Hp.
      split; [apply orb_true_r | exact Hs].
    + intros [->|HI].
      * rewrite String.eqb_refl. split; [reflexivity|].
        intros Hs. apply existsb_eqb_In in Hs. congruence.
      * destruct (IH _ HI) as [Hp Hs]. rewrite Hp.
        split; [apply orb_true_r|]. intros Hk. apply Hs, in_or_app. now left.
  - apply IH.
Qed.

(** X1: the keys of the map returned by [aggregate_activity] are the
    roster's keys together with the user of every message, tracked or
    not. *)
Theorem aggregate_activity_domain (history : list message)
    (users : dict user_info) (k : string) :
  In k (dict_keys (aggregate_activity history users)) <->
  In k (dict_keys users) \/
  exists m, In m history /\ dict_get "user" m = Some k.
Proof. now rewrite aggregate_activity_keys, has_posted_true. Qed.

Lemma aggregate_activity_keys_eq (history : list message)
    (users : dict user_info) :
  dict_wf users ->
  dict_keys (aggregate_activity history users)
  = (dict_keys users ++ first_seen (dict_keys users) history)%list.
Proof.
  intros Hwf. unfold aggregate_activity.
  now rewrite record_fold_keys, init_activity_keys.
Qed.

(** X2: for a roster with distinct keys the map lists the roster's
    users first, in roster order, and after them the untracked posters in
    the order of their first message. *)
Theorem aggregate_activity_key_order (history : list message)
    (users : dict user_info) :
  dict_wf users ->
  dict_keys (aggregate_activity history users)
  = (dict_keys users ++ first_seen (dict_keys users) history)%list.
Proof. apply aggregate_activity_keys_eq. Qed.

Lemma aggregate_activity_key_order_witness :
  dict_keys (aggregate_activity
               [sample_message "u9" "1"; sample_message "u2" "2";
                sample_message "u7" "3"; sample_message "u9" "4"]
               sample_roster)
  = ["u1"; "u2"; "u9"; "u7"].
Proof.
  apply (aggregate_activity_key_order
           [sample_message "u9" "1"; sample_message "u2" "2";
            sample_message "u7" "3"; sample_message "u9" "4"] sample_roster).
  unfold dict_wf. simpl. repeat constructor; simpl; intuition discriminate.
Defined.

(** ** The conclusion of an aggregated history *)

Lemma aggregate_false_in_roster (history : list message)
    (users : dict user_info) (k : string) :
  dict_get k (aggregate_activity history users) = Some false ->
  In k (dict_keys users).
Proof.
  rewrite aggregate_activity_get.
  destruct (has_posted k history); [discriminate|].
  destruct (dict_mem k users) eqn:E; [|discriminate].
  intros _. now apply dict_mem_In.
Qed.

Lemma non_posters_aggregate (history : list message) (users : dict user_info) :
  dict_wf users ->
  non_posters (aggregate_activity history users)
  = map fst (absentees history users).
Proof.
  intros Hwf. unfold non_posters, absentees.
  rewrite (aggregate_activity_keys_eq history users Hwf), filter_app.
  assert (Hnew : filter (is_False (aggregate_activity history users))
                   (first_seen (dict_keys users) history) = []).
  { rewrite <- (filter_false (first_seen (dict_keys users) history)).
    apply filter_ext_in.
    intros k Hk. apply first_seen_posted in Hk. destruct Hk as [Hp _].
    unfold is_False. now rewrite aggregate_activity_get, Hp. }
  rewrite Hnew, app_nil_r. unfold dict_keys.
  rewrite filter_map_swap. f_equal. apply filter_ext_in.
  intros [k info] HI. simpl. unfold is_False.
  rewrite aggregate_activity_get.
  assert (Hk : dict_mem k users = true).
  { apply dict_mem_In. change k with (fst (k, info)). now apply in_map. }
  rewrite Hk. now destruct (has_posted k history).
Qed.

Lemma rmap_tag_item_entries (users : dict user_info)
    (l : list (string * user_info)) :
  (forall kv, In kv l -> dict_get (fst kv) users = Some (snd kv)) ->
  rmap (tag_item users) (map fst l) = Return (map entry_text l).
Proof.
  induction l as [|[k info] l IH]; intros Hl; [reflexivity|].
  pose proof (Hl (k, info) (or_introl eq_refl)) as Hk. simpl in Hk.
  simpl. unfold tag_item at 1, getitem. rewrite Hk. simpl.
  rewrite IH by (intros; apply Hl; now right). reflexivity.
Qed.

Lemma make_conclusion_aggregate_eq (history : list message)
    (users : dict user_info) :
  dict_wf users ->
  make_conclusion (aggregate_activity history users) users
  = Return (match absentees history users with
            | [] => "Go team!"
            | l => String.concat (", " ++ nl) (map entry_text l)
            end).
Proof.
  intros Hwf. unfold make_conclusion.
  rewrite (non_posters_aggregate history users Hwf).
  destruct (absentees history users) as [|kv l] eqn:E; [reflexivity|].
  rewrite <- E. rewrite rmap_tag_item_entries.
  - rewrite E. reflexivity.
  - intros [k info] HI. unfold absentees in HI. apply filter_In in HI.
    simpl. apply dict_get_In_wf; tauto.
Qed.

(** X3: run on the aggregated history and the same roster (with
    distinct keys), [make_conclusion] returns the congratulation when no
    roster user is without a message, and otherwise the texts of exactly
    the roster users without a message, in roster order. *)
Theorem conclusion_of_history (history : list message) (users : dict user_info) :
  dict_wf users ->
  make_conclusion (aggregate_activity history users) users
  = Return (match absentees history users with
            | [] => "Go team!"
            | l => String.concat (", " ++ nl) (map entry_text l)
            end).
Proof. apply make_conclusion_aggregate_eq. Qed.

Lemma conclusion_of_history_witness :
  make_conclusion
    (aggregate_activity [sample_message "u9" "1"] sample_roster) sample_roster
  = Return ("Alice (alice), " ++ nl ++ "Bob (bob)").
Proof.
  apply (conclusion_of_history [sample_message "u9" "1"] sample_roster).
  unfold dict_wf. simpl. repeat constructor; simpl; intuition discriminate.
Defined.

(** A text that ends with a closing parenthesis is not the
    congratulation. *)
Lemma rparen_not_congratulation (p : string) : p ++ ")" <> "Go team!".
Proof.
  intros H.
  do 8 (destruct p as [|? p]; simpl in H; [discriminate | injection H as _ H]).
  destruct p; discriminate.
Qed.

Lemma string_app_assoc (a b c : string) : (a ++ b) ++ c = a ++ (b ++ c).
Proof. induction a as [|x a IH]; simpl; [reflexivity | now rewrite IH]. Qed.

Lemma concat_ends_rparen (sep : string) (items : list string) :
  items <> [] ->
  Forall (fun s => exists p, s = p ++ ")") items ->
  exists p, String.concat sep items = p ++ ")".
Proof.
  induction items as [|s l IH]; intros Hne HF; [congruence|].
  inversion HF as [|? ? [p Hs] HF']; subst.
  destruct l as [|s' l'].
  - exists p. reflexivity.
  - destruct IH as [q Hq]; [discriminate | exact HF'|].
    exists ((p ++ ")") ++ sep ++ q). simpl in *. rewrite Hq.
    now rewrite !string_app_assoc.
Qed.

(** X4: the conclusion of an aggregated history is the
    congratulation exactly when every roster user has a message in the
    history. *)
Theorem congratulation_iff_all_posted (history : list message)
    (users : dict user_info) :
  make_conclusion (aggregate_activity history users) users = Return "Go team!"
  <->
  forall k, In k (dict_keys users) ->
            exists m, In m history /\ dict_get "user" m = Some k.
Proof.
  split.
  - intros Hgo k Hk. apply has_posted_true.
    destruct (has_posted k history) eqn:Hp; [reflexivity|]. exfalso.
    assert (Hf : dict_get k (aggregate_activity history users) = Some false).
    { rewrite aggregate_activity_get, Hp.
      apply dict_mem_In in Hk. now rewrite Hk. }
    assert (Hnp : In k (non_posters (aggregate_activity history users))).
    { unfold non_posters. apply filter_In. split.
      - apply dict_mem_In. unfold dict_mem. now rewrite Hf.
      - unfold is_False. now rewrite Hf. }
    destruct (make_conclusion_some_absent
                (aggregate_activity history users) users) as [items [HF Hr]].
    + intros E. rewrite E in Hnp. contradiction.
    + intros k' Hk'. apply non_posters_In in Hk'.
      now apply (aggregate_false_in_roster history users).
    + rewrite Hr in Hgo. injection Hgo as Hgo.
      destruct (concat_ends_rparen conclusion_separator items) as [p Hp'].
      * intros E. subst items. inversion HF as [E'|]; subst.
        rewrite <- E' in Hnp. contradiction.
      * clear - HF. induction HF as [|k s l l' [info [_ ->]] _ IH]; constructor; auto.
        exists (real_name info ++ " (" ++ user_name info).
        now rewrite !string_app_assoc.
      * rewrite Hp' in Hgo. exact (rparen_not_congratulation p Hgo).
  - intros Hall. apply make_conclusion_none_absent.
    destruct (non_posters (aggregate_activity history users)) as [|k l] eqn:E;
      [reflexivity|]. exfalso.
    assert (Hk : In k (non_posters (aggregate_activity history users)))
      by (rewrite E; now left).
    apply non_posters_In in Hk. rewrite aggregate_activity_get in Hk.
    destruct (has_posted k history) eqn:Hp; [discriminate|].
    destruct (dict_mem k users) eqn:Hm; [|discriminate].
    apply dict_mem_In, Hall, has_posted_true in Hm. congruence.
Qed.

(** ** Presence Aggregator: the effect of one message *)

(** X5: a message without a [user] field is skipped: the map is the
    one obtained from the history without it. *)
Theorem aggregate_activity_skips_userless (h1 h2 : list message) (m : message)
    (users : dict user_info) :
  dict_get "user" m = None ->
  aggregate_activity (h1 ++ m :: h2) users = aggregate_activity (h1 ++ h2) users.
Proof.
  intros Hm. unfold aggregate_activity. rewrite !fold_left_app. simpl.
  unfold record_message at 2. now rewrite Hm.
Qed.

Lemma aggregate_activity_skips_userless_witness :
  aggregate_activity
    ([sample_message "u1" "1"] ++ [("ts", "2")] :: [sample_message "u2" "3"])
    sample_roster
  = aggregate_activity
      ([sample_message "u1" "1"] ++ [sample_message "u2" "3"]) sample_roster.
Proof.
  apply (aggregate_activity_skips_userless
           [sample_message "u1" "1"] [sample_message "u2" "3"] [("ts", "2")]
           sample_roster).
  reflexivity.
Defined.

(** X6: a message changes at most the entry of its own user: the
    entry of every other key is the one obtained without the message. *)
Theorem aggregate_activity_other_entries (h1 h2 : list message) (m : message)
    (users : dict user_info) (k : string) :
  dict_get "user" m <> Some k ->
  dict_get k (aggregate_activity (h1 ++ m :: h2) users)
  = dict_get k (aggregate_activity (h1 ++ h2) users).
Proof.
  intros Hm. rewrite !aggregate_activity_get. unfold has_posted.
  rewrite !existsb_app. simpl.
  assert (Hp : posted_by k m = false).
  { unfold posted_by. destruct (dict_get "user" m) as [u|]; [|reflexivity].
    apply String.eqb_neq. congruence. }
  now rewrite Hp.
Qed.

Lemma aggregate_activity_other_entries_witness :
  dict_get "u2"
    (aggregate_activity ([] ++ sample_message "u1" "1" :: []) sample_roster)
  = dict_get "u2" (aggregate_activity ([] ++ []) sample_roster).
Proof.
  apply (aggregate_activity_other_entries [] [] (sample_message "u1" "1")
           sample_roster "u2").
  simpl. discriminate.
Defined.

(** X7: a user marked present stays present when the history grows:
    more messages never turn an entry back to [False]. *)
Theorem aggregate_activity_monotone (h h' : list message)
    (users : dict user_info) (k : string) :
  dict_get k (aggregate_activity h users) = Some true ->
  dict_get k (aggregate_activity (h ++ h') users) = Some true.
Proof.
  rewrite !aggregate_activity_get. unfold has_posted. rewrite existsb_app.
  destruct (existsb (posted_by k) h); [reflexivity|].
  destruct (dict_mem k users); discriminate.
Qed.

Lemma aggregate_activity_monotone_witness :
  dict_get "u1"
    (aggregate_activity ([sample_message "u1" "1"] ++ [sample_message "u2" "2"])
       sample_roster)
  = Some true.
Proof.
  apply (aggregate_activity_monotone [sample_message "u1" "1"]
           [sample_message "u2" "2"] sample_roster "u1").
  reflexivity.
Defined.

(** ** Report Formatter: a non-poster that the roster does not have *)

Lemma rmap_tag_item_missing (users : dict user_info) (l1 l2 : list string)
    (k : string) :
  (forall k', In k' l1 -> In k' (dict_keys users)) ->
  ~ In k (dict_keys users) ->
  rmap (tag_item users) (l1 ++ k :: l2) = Raise (KeyError k).
Proof.
  intros Hl1 Hk. induction l1 as [|k1 l IH]; simpl.
  - unfold tag_item, getitem. apply dict_get_None in Hk. now rewrite Hk.
  - assert (H1 : In k1 (dict_keys users)) by (apply Hl1; now left).
    apply dict_mem_In in H1. unfold dict_mem in H1.
    unfold tag_item at 1, getitem.
    destruct (dict_get k1 users); [|discriminate]. simpl.
    rewrite IH by (intros; apply Hl1; now right). reflexivity.
Qed.

(** X8: when a key whose entry is [False] is not in the roster,
    [make_conclusion] raises [KeyError] with the first such key, in the
    order of the presence map. *)
Theorem make_conclusion_missing_user (presence : dict bool)
    (users : dict user_info) (l1 l2 : list string) (k : string) :
  non_posters presence = (l1 ++ k :: l2)%list ->
  (forall k', In k' l1 -> In k' (dict_keys users)) ->
  ~ In k (dict_keys users) ->
  make_conclusion presence users = Raise (KeyError k).
Proof.
  intros Hnp Hl1 Hk. unfold make_conclusion. rewrite Hnp.
  rewrite (rmap_tag_item_missing users l1 l2 k Hl1 Hk).
  now destruct l1.
Qed.

Lemma make_conclusion_missing_user_witness :
  make_conclusion [("u1", false); ("u9", false); ("u2", false)] sample_roster
  = Raise (KeyError "u9").
Proof.
  apply (make_conclusion_missing_user
           [("u1", false); ("u9", false); ("u2", false)] sample_roster
           ["u1"] ["u2"] "u9").
  - reflexivity.
  - intros k' [<-|[]]. simpl. now left.
  - simpl. intuition discriminate.
Defined.

(** ** History Fetcher: records, events and failures *)

Lemma select_messages_untyped_witness :
  select_messages
    ([[("type", "message"); ("user", "u1"); ("ts", "3")]]
     ++ [("user", "u2"); ("ts", "4")]
     :: [[("type", "message"); ("user", "u3"); ("ts", "5")]])
  = Raise (KeyError "type").
Proof.
  apply (select_messages_untyped
           [[("type", "message"); ("user", "u1"); ("ts", "3")]]
           [[("type", "message"); ("user", "u3"); ("ts", "5")]]
           [("user", "u2"); ("ts", "4")]).
  - repeat constructor.
  - reflexivity.
Defined.

Lemma select_messages_shape (messages out : list message) :
  select_messages messages = Return out ->
  Forall is_fetched_record out /\ (List.length out <= List.length messages)%nat.
Proof.
  revert out. induction messages as [|m l IH]; intros out; simpl.
  - intros [= <-]. split; [constructor | apply le_n].
  - unfold getitem, dict_mem.
    destruct (dict_get "type" m) as [ty|]; [|discriminate]. simpl.
    destruct (dict_get "user" m) as [u|], (dict_get "ts" m) as [t|],
      (String.eqb ty "message"); simpl;
      try (intros H; destruct (IH _ H) as [HF Hlen]; split;
           [exact HF | now apply le_S]).
    destruct (select_messages l) as [out'|e]; simpl; [|discriminate].
    intros [= <-]. destruct (IH out' eq_refl) as [HF Hlen]. split.
    + constructor; [now exists u, t | exact HF].
    + simpl. now apply le_n_S.
Qed.

Lemma get_message_history_shape_aux (w : world)
    (token channel_id channel_name : string) (days : Z)
    (tr : list event) (history : list message) :
  get_message_history w token channel_id channel_name days
  = (tr, Return history) ->
  Forall is_fetched_record history /\
  rmap (getitem "user") history = Return (history_users history).
Proof.
  unfold get_message_history. intros H.
  apply bind_inv in H. destruct H as (t0 & ts & t0' & _ & H & _).
  apply bind_inv in H. destruct H as (t1 & ? & t1' & _ & H & _).
  apply bind_inv in H. destruct H as (t2 & raw & t2' & _ & H & _).
  apply bind_inv in H. destruct H as (t3 & ? & t3' & _ & H & _).
  apply bind_inv in H. destruct H as (t4 & ? & t4' & _ & H & _).
  apply bind_inv in H. destruct H as (t5 & field & t5' & _ & H & _).
  apply bind_inv in H. destruct H as (t6 & messages & t6' & _ & H & _).
  apply lift_inv in H. destruct H as [H _].
  apply select_messages_shape in H. destruct H as [HF _].
  split; [exact HF|].
  clear - HF. induction HF as [|m l [u [t ->]] _ IH]; [reflexivity|].
  simpl. now rewrite IH.
Qed.

(** X10: every record that [get_message_history] returns has exactly
    the two fields [user] and [ts]; so the lookup [message['user']] of the
    aggregation and of the ranking cannot fail on a fetched history. *)
Theorem get_message_history_records (w : world)
    (token channel_id channel_name : string) (days : Z)
    (tr : list event) (history : list message) :
  get_message_history w token channel_id channel_name days
  = (tr, Return history) ->
  Forall is_fetched_record history /\
  exists posters, rmap (getitem "user") history = Return posters /\
                  List.length posters = List.length history.
Proof.
  intros H.
  destruct (get_message_history_shape_aux _ _ _ _ _ _ _ H) as [HF _].
  split; [exact HF|].
  clear - HF. induction HF as [|m l [u [t ->]] _ [posters [Hr Hlen]]].
  - now exists [].
  - exists (u :: posters). simpl. rewrite Hr. simpl. now rewrite Hlen.
Qed.

Lemma get_message_history_records_witness :
  Forall is_fetched_record
    [[("user", "u1"); ("ts", "3")]; [("user", "u1"); ("ts", "4")];
     [("user", "u7"); ("ts", "7")]; [("user", "u2"); ("ts", "8")]].
Proof.
  exact (proj1 (get_message_history_records sample_world
                  "xoxp-token" "C1" "standup" 7 _ _ eq_refl)).
Defined.

(** X11: the events of [get_message_history].  When the cutoff cannot
    be computed nothing happens at all; otherwise the progress line is
    printed, the one request for the history is made with this cutoff and a
    count of 1000, and the only event that can follow is the dump, written
    once a response has arrived and the dump file was opened. *)
Theorem get_message_history_events (w : world)
    (token channel_id channel_name : string) (days : Z) :
  match timestamp_for_days_ago w days with
  | Raise e =>
      get_message_history w token channel_id channel_name days = ([], Raise e)
  | Return ts =>
      let request :=
        [Print [PStr (progress_line w channel_id channel_name days ts)];
         CallSlack "channels.history" (history_params token channel_id ts)] in
      match slack w "channels.history" (history_params token channel_id ts),
            open_w w history_dump_path with
      | Return raw, Return _ =>
          fst (get_message_history w token channel_id channel_name days)
          = (request ++ [WriteFile history_dump_path (json_pp w raw)])%list
      | Return _, Raise e | Raise e, _ =>
          get_message_history w token channel_id channel_name days
          = (request, Raise e)
      end
  end.
Proof.
  unfold get_message_history, call_slack, print, emit, lift, progress_line.
  destruct (timestamp_for_days_ago w days) as [ts|e]; simpl; [|reflexivity].
  destruct (slack w "channels.history" (history_params token channel_id ts))
    as [raw|e]; simpl; [|reflexivity].
  destruct (open_w w history_dump_path) as [[]|e]; simpl; [|reflexivity].
  destruct (getitem "messages" raw) as [field|e]; simpl; [|reflexivity].
  destruct (iter_messages field) as [messages|e]; simpl; [|reflexivity].
  now destruct (select_messages messages).
Qed.

(** X12: a response without a [messages] list (an error response) is
    still written to the dump; the fetch then fails with [KeyError]. *)
Theorem get_message_history_error_response (w : world)
    (token channel_id channel_name : string) (days : Z)
    (ts : pyfloat) (raw : response) :
  timestamp_for_days_ago w days = Return ts ->
  slack w "channels.history" (history_params token channel_id ts) = Return raw ->
  open_w w history_dump_path = Return tt ->
  dict_get "messages" raw = None ->
  get_message_history w token channel_id channel_name days
  = ([Print [PStr (progress_line w channel_id channel_name days ts)];
      CallSlack "channels.history" (history_params token channel_id ts);
      WriteFile history_dump_path (json_pp w raw)],
     Raise (KeyError "messages")).
Proof.
  intros Hts Hslack Hopen Hmsgs.
  unfold get_message_history, call_slack, print, emit, lift, progress_line.
  rewrite Hts. simpl. rewrite Hslack. simpl. rewrite Hopen. simpl.
  unfold getitem. now rewrite Hmsgs.
Qed.

Lemma get_message_history_error_response_witness :
  snd (get_message_history
         (sample_world_with [("ok", JBool false); ("error", JStr "channel_not_found")])
         "xoxp-token" "C1" "standup" 7)
  = Raise (KeyError "messages").
Proof.
  rewrite (get_message_history_error_response
             (sample_world_with
                [("ok", JBool false); ("error", JStr "channel_not_found")])
             "xoxp-token" "C1" "standup" 7
             (TrueDiv 1713398400000005 1000000)
             [("ok", JBool false); ("error", JStr "channel_not_found")]
             eq_refl eq_refl eq_refl eq_refl).
  reflexivity.
Defined.

(** ** Orchestrator: what a run does and where it can fail *)

Lemma for_each_ranking (users : dict user_info) (entries : list (string * Z)) :
  for_each entries (print_ranking users)
  = (ranking_events users entries, Return tt).
Proof.
  induction entries as [|e l IH]; [reflexivity|].
  simpl. rewrite IH. unfold print_ranking, dict_mem, getitem.
  now destruct (dict_get (fst e) users).
Qed.

Lemma rmap_history_users (history : list message) :
  Forall is_fetched_record history ->
  rmap (getitem "user") history = Return (history_users history).
Proof.
  induction 1 as [|m l [u [t ->]] _ IH]; [reflexivity|].
  simpl. now rewrite IH.
Qed.

Lemma make_conclusion_aggregate_returns (history : list message)
    (users : dict user_info) :
  exists text,
    make_conclusion (aggregate_activity history users) users = Return text.
Proof.
  destruct (non_posters (aggregate_activity history users)) as [|k l] eqn:E.
  - exists "Go team!". now apply make_conclusion_none_absent.
  - destruct (make_conclusion_some_absent
                (aggregate_activity history users) users) as [items [_ Hr]].
    + rewrite E. discriminate.
    + intros k' Hk'.
      now apply (aggregate_false_in_roster history users), non_posters_In.
    + eauto.
Qed.

(** The rest of a run whose history was fetched. *)
Lemma run_after_fetch (w : world) (args : cli_args)
    (token channel_id channel_name : string)
    (input_channel output_channel : dict string) (users : dict user_info)
    (tr : list event) (history : list message) :
  read_config_files w args
  = Return (token, input_channel, output_channel, users) ->
  dict_get "channel_id" input_channel = Some channel_id ->
  dict_get "channel_name" input_channel = Some channel_name ->
  get_message_history w token channel_id channel_name (num_days args)
  = (tr, Return history) ->
  exists conclusion,
    make_conclusion (aggregate_activity history users) users
    = Return conclusion /\
    run w args
    = ((tr ++ report_events users history
                ("Who's NOT present in the last " ++ format_int (num_days args)
                 ++ " days on #" ++ channel_name ++ "?")
                conclusion)%list,
       Return tt).
Proof.
  intros Hcfg Hid Hname Hfetch.
  destruct (make_conclusion_aggregate_returns history users) as [c Hc].
  exists c. split; [exact Hc|].
  destruct (get_message_history_shape_aux w token channel_id channel_name
              (num_days args) tr history Hfetch) as [_ Hposters].
  unfold run, lift. rewrite Hcfg. simpl.
  unfold getitem at 1. rewrite Hid. simpl.
  unfold getitem at 1. rewrite Hname. simpl.
  rewrite Hfetch. unfold make_introduction, getitem at 1. rewrite Hname. simpl.
  rewrite Hposters. simpl. rewrite for_each_ranking. simpl.
  rewrite Hc. simpl. unfold report_events.
  destruct (dry_run args); reflexivity.
Qed.

(** X13: when the first row of the input channel file has no
    [channel_id] or no [channel_name] column, the run ends with [KeyError]
    for the first missing column and has performed no event: nothing is
    printed and no request is made. *)
Theorem run_channel_column_missing (w : world) (args : cli_args)
    (token : string) (input_channel output_channel : dict string)
    (users : dict user_info) :
  read_config_files w args
  = Return (token, input_channel, output_channel, users) ->
  dict_mem "channel_id" input_channel && dict_mem "channel_name" input_channel
  = false ->
  run w args
  = ([], Raise (KeyError (if dict_mem "channel_id" input_channel
                          then "channel_name" else "channel_id"))).
Proof.
  intros Hcfg Hcols. unfold run, lift. rewrite Hcfg. simpl.
  unfold dict_mem, getitem in *.
  destruct (dict_get "channel_id" input_channel); simpl in *; [|reflexivity].
  destruct (dict_get "channel_name" input_channel); [discriminate | reflexivity].
Qed.

Lemma run_channel_column_missing_witness :
  run {| datetime_now := datetime_now sample_world;
         float_str := float_str sample_world;
         slack := slack sample_world;
         json_dumps := json_dumps sample_world;
         open_w := open_w sample_world;
         read_text := read_text sample_world;
         str_strip := str_strip sample_world;
         csv_rows := fun path =>
           match path with
           | Some "users.csv" => Return sample_user_rows
           | _ => Return [[("channel_name", "standup")]]
           end |}
      sample_args
  = ([], Raise (KeyError "channel_id")).
Proof.
  refine (run_channel_column_missing _ sample_args "xoxp-token"
            [("channel_name", "standup")] [("channel_name", "standup")]
            [("u1", sample_alice); ("u2", sample_bob);
             ("u3", mk_user_info "carol" "Carol" "u3")]
            _ eq_refl).
  reflexivity.
Defined.

(** X14: once the history is fetched the run cannot fail: it prints
    the header of the ranking, one line for each tracked poster, the blank
    lines and the report, and returns. *)
Theorem run_completes_after_fetch (w : world) (args : cli_args)
    (token channel_id channel_name : string)
    (input_channel output_channel : dict string) (users : dict user_info)
    (tr : list event) (history : list message) :
  read_config_files w args
  = Return (token, input_channel, output_channel, users) ->
  dict_get "channel_id" input_channel = Some channel_id ->
  dict_get "channel_name" input_channel = Some channel_name ->
  get_message_history w token channel_id channel_name (num_days args)
  = (tr, Return history) ->
  exists conclusion,
    make_conclusion (aggregate_activity history users) users
    = Return conclusion /\
    run w args
    = ((tr ++ report_events users history
                ("Who's NOT present in the last " ++ format_int (num_days args)
                 ++ " days on #" ++ channel_name ++ "?")
                conclusion)%list,
       Return tt).
Proof. apply run_after_fetch. Qed.

Lemma run_completes_after_fetch_witness :
  exists conclusion,
    make_conclusion
      (aggregate_activity
         [[("user", "u1"); ("ts", "3")]; [("user", "u1"); ("ts", "4")];
          [("user", "u7"); ("ts", "7")]; [("user", "u2"); ("ts", "8")]]
         [("u1", sample_alice); ("u2", sample_bob);
          ("u3", mk_user_info "carol" "Carol" "u3")])
      [("u1", sample_alice); ("u2", sample_bob);
       ("u3", mk_user_info "carol" "Carol" "u3")]
    = Return conclusion /\
    run sample_world sample_args
    = ((fst (get_message_history sample_world "xoxp-token" "C1" "standup" 7)
        ++ report_events
             [("u1", sample_alice); ("u2", sample_bob);
              ("u3", mk_user_info "carol" "Carol" "u3")]
             [[("user", "u1"); ("ts", "3")]; [("user", "u1"); ("ts", "4")];
              [("user", "u7"); ("ts", "7")]; [("user", "u2"); ("ts", "8")]]
             ("Who's NOT present in the last " ++ format_int 7
              ++ " days on #" ++ "standup" ++ "?")
             conclusion)%list,
       Return tt).
Proof.
  exact (run_completes_after_fetch sample_world sample_args
           "xoxp-token" "C1" "standup"
           [("channel_id", "C1"); ("channel_name", "standup")]
           [("channel_id", "C1"); ("channel_name", "standup")]
           _ _ _ eq_refl eq_refl eq_refl eq_refl).
Defined.

(** X15: a run that fails has not started its report: its events are
    either none at all (the configuration could not be loaded) or exactly
    those of the fetch that failed, with the fetch's exception. *)
Theorem run_failure_events (w : world) (args : cli_args)
    (tr : list event) (e : exn) :
  run w args = (tr, Raise e) ->
  tr = [] \/
  exists token channel_id channel_name,
    get_message_history w token channel_id channel_name (num_days args)
    = (tr, Raise e).
Proof.
  intros Hrun.
  destruct (read_config_files w args) as [[[[token ic] oc] users]|e0] eqn:Hcfg.
  2:{ left. unfold run, lift in Hrun. rewrite Hcfg in Hrun. simpl in Hrun.
      congruence. }
  destruct (dict_get "channel_id" ic) as [cid|] eqn:Hid.
  2:{ left. unfold run, lift in Hrun. rewrite Hcfg in Hrun. simpl in Hrun.
      unfold getitem in Hrun. rewrite Hid in Hrun. simpl in Hrun. congruence. }
  destruct (dict_get "channel_name" ic) as [cname|] eqn:Hname.
  2:{ left. unfold run, lift in Hrun. rewrite Hcfg in Hrun. simpl in Hrun.
      unfold getitem in Hrun. rewrite Hid, Hname in Hrun. simpl in Hrun.
      congruence. }
  destruct (get_message_history w token cid cname (num_days args))
    as [t [history|e1]] eqn:Hfetch.
  - destruct (run_after_fetch w args token cid cname ic oc users t history
                Hcfg Hid Hname Hfetch) as [c [_ Hr]].
    rewrite Hr in Hrun. discriminate.
  - right. exists token, cid, cname. rewrite Hfetch.
    unfold run, lift in Hrun. rewrite Hcfg in Hrun. simpl in Hrun.
    unfold getitem in Hrun. rewrite Hid, Hname in Hrun. simpl in Hrun.
    rewrite Hfetch in Hrun. simpl in Hrun. congruence.
Qed.

Lemma run_failure_events_witness :
  [Print [PStr (progress_line sample_world "C1" "standup" 7
                  (TrueDiv 1713398400000005 1000000))];
   CallSlack "channels.history"
     (history_params "xoxp-token" "C1" (TrueDiv 1713398400000005 1000000));
   WriteFile history_dump_path "{}"] = [] \/
  exists token channel_id channel_name,
    get_message_history (sample_world_with sample_untyped_response)
      token channel_id channel_name 7
    = ([Print [PStr (progress_line sample_world "C1" "standup" 7
                       (TrueDiv 1713398400000005 1000000))];
        CallSlack "channels.history"
          (history_params "xoxp-token" "C1" (TrueDiv 1713398400000005 1000000));
        WriteFile history_dump_path "{}"],
       Raise (KeyError "type")).
Proof.
  exact (run_failure_events (sample_world_with sample_untyped_response)
           sample_args _ _ eq_refl).
Defined.

(** ** Config Loader: the roster and the channel files *)

Lemma roster_of_rows_step (row : dict string) (rest : list (dict string))
    (acc users : dict user_info) :
  roster_of_rows (row :: rest) acc = Return users ->
  exists info uid,
    record_of_row row = Some info /\ dict_get "user_id" row = Some uid /\
    user_id info = uid /\
    roster_of_rows rest (dict_set uid info acc) = Return users.
Proof.
  simpl. unfold getitem, record_of_row.
  destruct (dict_get "user_id" row) as [uid|]; [|discriminate]. simpl.
  destruct (dict_get "user_name" row) as [uname|]; [|discriminate]. simpl.
  destruct (dict_get "real_name" row) as [rname|]; [|discriminate]. simpl.
  intros H. exists (mk_user_info uname rname uid), uid. auto.
Qed.

Lemma roster_of_rows_invariant (rows : list (dict string))
    (acc users : dict user_info) :
  roster_of_rows rows acc = Return users ->
  dict_wf acc ->
  (forall k info, dict_get k acc = Some info -> user_id info = k) ->
  dict_wf users /\
  (forall k info, dict_get k users = Some info -> user_id info = k).
Proof.
  revert acc. induction rows as [|row rest IH]; intros acc H Hwf Hid.
  - simpl in H. injection H as <-. auto.
  - apply roster_of_rows_step in H.
    destruct H as (info & uid & _ & _ & Huid & H).
    apply (IH _ H); [now apply dict_wf_set|].
    intros k info'. rewrite dict_get_set.
    destruct (String.eqb_spec k uid) as [->|Hne]; [|apply Hid].
    now intros [= <-].
Qed.

Lemma find_over_app {A : Type} (p : A -> bool) (l1 l2 : list A) :
  find p (l1 ++ l2)
  = match find p l1 with Some x => Some x | None => find p l2 end.
Proof.
  induction l1 as [|x l IH]; simpl; [reflexivity|]. now destruct (p x).
Qed.

Lemma roster_of_rows_get (rows : list (dict string))
    (acc users : dict user_info) (k : string) :
  roster_of_rows rows acc = Return users ->
  dict_get k users
  = match find (is_row_of k) (rev rows) with
    | Some row => record_of_row row
    | None => dict_get k acc
    end.
Proof.
  revert acc. induction rows as [|row rest IH]; intros acc H.
  - simpl in H. injection H as <-. reflexivity.
  - apply roster_of_rows_step in H.
    destruct H as (info & uid & Hrec & Hrow & _ & H).
    rewrite (IH _ H). simpl rev. rewrite find_over_app.
    destruct (find (is_row_of k) (rev rest)); [reflexivity|].
    simpl. unfold is_row_of. rewrite Hrow, dict_get_set.
    now destruct (String.eqb k uid).
Qed.

Lemma read_config_files_inv (w : world) (args : cli_args) (token : string)
    (input_channel output_channel : dict string) (users : dict user_info) :
  read_config_files w args
  = Return (token, input_channel, output_channel, users) ->
  exists user_rows,
    csv_rows w (user_file args) = Return user_rows /\
    roster_of_rows user_rows [] = Return users.
Proof.
  unfold read_config_files.
  destruct (read_text w (token_file args)); [|discriminate]. simpl.
  destruct (csv_rows w (input_channel_file args)) as [[|? ?]|]; try discriminate.
  simpl.
  destruct (csv_rows w (output_channel_file args)) as [[|? ?]|]; try discriminate.
  simpl.
  destruct (csv_rows w (user_file args)) as [user_rows|]; [|discriminate]. simpl.
  destruct (roster_of_rows user_rows []) as [users'|] eqn:E; [|discriminate].
  simpl. intros [= _ _ _ <-]. now exists user_rows.
Qed.

(** X16: the roster that [read_config_files] returns has distinct
    keys, and every record is stored under its own [user_id]. *)
Theorem read_config_files_roster (w : world) (args : cli_args) (token : string)
    (input_channel output_channel : dict string) (users : dict user_info) :
  read_config_files w args
  = Return (token, input_channel, output_channel, users) ->
  dict_wf users /\
  (forall k info, dict_get k users = Some info -> user_id info = k).
Proof.
  intros H. apply read_config_files_inv in H. destruct H as (rows & _ & H).
  apply (roster_of_rows_invariant rows [] users H); [apply dict_wf_nil|].
  intros k info. discriminate.
Qed.

Lemma read_config_files_roster_witness :
  dict_wf [("u1", sample_alice); ("u2", sample_bob);
           ("u3", mk_user_info "carol" "Carol" "u3")] /\
  (forall k info,
     dict_get k [("u1", sample_alice); ("u2", sample_bob);
                 ("u3", mk_user_info "carol" "Carol" "u3")] = Some info ->
     user_id info = k).
Proof.
  exact (read_config_files_roster sample_world sample_args "xoxp-token"
           [("channel_id", "C1"); ("channel_name", "standup")]
           [("channel_id", "C1"); ("channel_name", "standup")]
           _ eq_refl).
Defined.

(** X17: when several rows of the user file have the same [user_id],
    the roster holds the record of the last of them; a user of no row is
    not in the roster. *)
Theorem roster_last_row_wins (rows : list (dict string))
    (users : dict user_info) (k : string) :
  roster_of_rows rows [] = Return users ->
  dict_get k users
  = match find (is_row_of k) (rev rows) with
    | Some row => record_of_row row
    | None => None
    end.
Proof. intros H. now rewrite (roster_of_rows_get rows [] users k H). Qed.

Lemma roster_last_row_wins_witness :
  dict_get "u1"
    [("u1", mk_user_info "ally" "Alice B" "u1"); ("u2", sample_bob)]
  = Some (mk_user_info "ally" "Alice B" "u1").
Proof.
  exact (roster_last_row_wins
           [[("user_id", "u1"); ("user_name", "alice"); ("real_name", "Alice")];
            [("user_id", "u2"); ("user_name", "bob"); ("real_name", "Bob")];
            [("user_id", "u1"); ("user_name", "ally"); ("real_name", "Alice B")]]
           _ "u1" eq_refl).
Defined.

(** X18: a channel file without a data row stops the run with
    [StopIteration] before any event; this holds for the output channel
    file too, although nothing is ever sent to that channel. *)
Theorem run_needs_channel_rows (w : world) (args : cli_args) (text : string)
    (in_rows out_rows : list (dict string)) :
  read_text w (token_file args) = Return text ->
  csv_rows w (input_channel_file args) = Return in_rows ->
  csv_rows w (output_channel_file args) = Return out_rows ->
  in_rows = [] \/ out_rows = [] ->
  read_config_files w args = Raise StopIteration /\
  run w args = ([], Raise StopIteration).
Proof.
  intros Htext Hin Hout Hempty.
  assert (Hcfg : read_config_files w args = Raise StopIteration).
  { unfold read_config_files. rewrite Htext. simpl. rewrite Hin. simpl.
    destruct in_rows as [|r rs]; [reflexivity|]. simpl. rewrite Hout. simpl.
    destruct Hempty as [H|H]; [discriminate | now rewrite H]. }
  split; [exact Hcfg|]. unfold run, lift. now rewrite Hcfg.
Qed.

Lemma run_needs_channel_rows_witness :
  run {| datetime_now := datetime_now sample_world;
         float_str := float_str sample_world;
         slack := slack sample_world;
         json_dumps := json_dumps sample_world;
         open_w := open_w sample_world;
         read_text := read_text sample_world;
         str_strip := str_strip sample_world;
         csv_rows := fun path =>
           match path with
           | Some "out.csv" => Return []
           | _ => csv_rows sample_world path
           end |}
      sample_args
  = ([], Raise StopIteration).
Proof.
  eapply proj2.
  eapply (run_needs_channel_rows _ sample_args "xoxp-token"
            [[("channel_id", "C1"); ("channel_name", "standup")]] []);
    [reflexivity | reflexivity | reflexivity | now right].
Defined.

(** ** Debug ranking *)

Lemma count_one_get (c : dict Z) (x k : string) :
  dict_get k (count_one c x)
  = if String.eqb k x
    then Some (match dict_get x c with Some n => n + 1 | None => 1 end)%Z
    else dict_get k c.
Proof. unfold count_one. destruct (dict_get x c); apply dict_get_set. Qed.

Lemma counter_fold_get (l : list string) (c : dict Z) (k : string) :
  dict_get k (fold_left count_one l c)
  = match dict_get k c with
    | Some n0 => Some (n0 + Z.of_nat (count_occ string_dec l k))%Z
    | None => if Nat.eqb (count_occ string_dec l k) 0 then None
              else Some (Z.of_nat (count_occ string_dec l k))
    end.
Proof.
  revert c. induction l as [|x l IH]; intros c.
  - simpl. destruct (dict_get k c); [f_equal; lia | reflexivity].
  - cbn [fold_left]. rewrite IH, count_one_get.
    destruct (string_dec x k) as [->|Hne].
    + rewrite String.eqb_refl, (count_occ_cons_eq string_dec l eq_refl).
      rewrite Nat2Z.inj_succ.
      destruct (dict_get k c); cbn [Nat.eqb]; f_equal; lia.
    + assert (E : String.eqb k x = false) by (apply String.eqb_neq; congruence).
      now rewrite E, (count_occ_cons_neq string_dec l Hne).
Qed.

Lemma Counter_get (l : list string) (k : string) :
  dict_get k (Counter l)
  = if Nat.eqb (count_occ string_dec l k) 0 then None
    else Some (Z.of_nat (count_occ string_dec l k)).
Proof. unfold Counter. now rewrite counter_fold_get. Qed.

Lemma Counter_wf (l : list string) : dict_wf (Counter l).
Proof.
  unfold Counter. generalize (@dict_wf_nil Z). generalize (@nil (string * Z)).
  induction l as [|x l IH]; intros c Hc; simpl; [exact Hc|].
  apply IH. unfold count_one. destruct (dict_get x c); now apply dict_wf_set.
Qed.

Lemma Counter_In (l : list string) (k : string) (n : Z) :
  In (k, n) (Counter l) <->
  In k l /\ n = Z.of_nat (count_occ string_dec l k).
Proof.
  split.
  - intros HI. apply (dict_get_In_wf k n _ (Counter_wf l)) in HI.
    rewrite Counter_get in HI.
    destruct (Nat.eqb_spec (count_occ string_dec l k) 0) as [E|E];
      [discriminate|].
    injection HI as <-. split; [|reflexivity].
    apply (count_occ_In string_dec). lia.
  - intros [HI ->]. apply dict_get_Some_In. rewrite Counter_get.
    apply (count_occ_In string_dec) in HI.
    destruct (Nat.eqb_spec (count_occ string_dec l k) 0); [lia | reflexivity].
Qed.

Lemma insert_desc_Permutation (x : string * Z) (l : list (string * Z)) :
  Permutation (insert_desc x l) (x :: l).
Proof.
  induction l as [|y l IH]; simpl; [reflexivity|].
  destruct (snd y <? snd x)%Z; [reflexivity|].
  rewrite IH. apply perm_swap.
Qed.

Lemma most_common_fold_Permutation (c acc : list (string * Z)) :
  Permutation (fold_left (fun a x => insert_desc x a) c acc) (acc ++ c).
Proof.
  revert acc. induction c as [|x c IH]; intros acc; simpl.
  - now rewrite app_nil_r.
  - rewrite IH, insert_desc_Permutation. apply Permutation_middle.
Qed.

Lemma most_common_Permutation (c : dict Z) : Permutation (most_common c) c.
Proof. apply (most_common_fold_Permutation c []). Qed.

Lemma insert_desc_sorted (x : string * Z) (l : list (string * Z)) :
  StronglySorted (fun a b => (snd b <= snd a)%Z) l ->
  StronglySorted (fun a b => (snd b <= snd a)%Z) (insert_desc x l).
Proof.
  induction 1 as [|y l Hs IH Hy]; simpl.
  - repeat constructor.
  - destruct (Z.ltb_spec (snd y) (snd x)) as [Hlt|Hge].
    + constructor; [now constructor|].
      constructor; [lia|]. rewrite Forall_forall in *.
      intros z Hz. specialize (Hy z Hz). lia.
    + constructor; [exact IH|].
      rewrite Forall_forall in *. intros z Hz.
      apply (Permutation_in _ (insert_desc_Permutation x l)) in Hz.
      destruct Hz as [<-|Hz]; [lia | auto].
Qed.

Lemma most_common_sorted (c : dict Z) :
  StronglySorted (fun a b => (snd b <= snd a)%Z) (most_common c).
Proof.
  unfold most_common.
  assert (G : forall acc : list (string * Z),
            StronglySorted (fun a b => (snd b <= snd a)%Z) acc ->
            StronglySorted (fun a b => (snd b <= snd a)%Z)
              (fold_left (fun a x => insert_desc x a) c acc)).
  { induction c as [|x c IH]; intros acc Hacc; simpl; [exact Hacc|].
    apply IH. now apply insert_desc_sorted. }
  apply G. constructor.
Qed.

Lemma insert_desc_ties (x : string * Z) (l : list (string * Z)) (n : Z) :
  StronglySorted (fun a b => (snd b <= snd a)%Z) l ->
  filter (fun e => Z.eqb (snd e) n) (insert_desc x l)
  = (filter (fun e => Z.eqb (snd e) n) l
     ++ filter (fun e => Z.eqb (snd e) n) [x])%list.
Proof.
  induction 1 as [|y l Hs IH Hy]; [reflexivity|].
  cbn [insert_desc]. destruct (Z.ltb_spec (snd y) (snd x)) as [Hlt|Hge].
  - cbn [filter]. destruct (Z.eqb_spec (snd x) n) as [Hx|Hx].
    + assert (Hy' : filter (fun e => Z.eqb (snd e) n) (y :: l) = []).
      { rewrite <- (filter_false (y :: l)). apply filter_ext_in.
        intros z [<-|Hz]; apply Z.eqb_neq; [lia|].
        rewrite Forall_forall in Hy. specialize (Hy z Hz). lia. }
      cbn [filter] in Hy'. now rewrite Hy'.
    + now rewrite app_nil_r.
  - cbn [filter]. rewrite IH.
    now destruct (Z.eqb (snd y) n).
Qed.

Lemma most_common_ties (c : dict Z) (n : Z) :
  filter (fun e => Z.eqb (snd e) n) (most_common c)
  = filter (fun e => Z.eqb (snd e) n) c.
Proof.
  unfold most_common.
  assert (G : forall acc : list (string * Z),
            StronglySorted (fun a b => (snd b <= snd a)%Z) acc ->
            filter (fun e => Z.eqb (snd e) n)
              (fold_left (fun a x => insert_desc x a) c acc)
            = (filter (fun e => Z.eqb (snd e) n) acc
               ++ filter (fun e => Z.eqb (snd e) n) c)%list).
  { induction c as [|x c IH]; intros acc Hacc; simpl fold_left.
    - now rewrite app_nil_r.
    - rewrite IH by now apply insert_desc_sorted.
      rewrite (insert_desc_ties x acc n Hacc), <- app_assoc.
      now rewrite <- filter_app. }
  now rewrite G by constructor.
Qed.

Lemma count_one_keys (c : dict Z) (x : string) :
  dict_keys (count_one c x)
  = if existsb (String.eqb x) (dict_keys c) then dict_keys c
    else (dict_keys c ++ [x])%list.
Proof.
  unfold count_one. rewrite <- dict_mem_existsb.
  destruct (dict_get x c) eqn:E; rewrite dict_keys_set; unfold dict_mem;
    now rewrite E.
Qed.

Lemma counter_fold_keys (history : list message) (c : dict Z) :
  dict_keys (fold_left count_one (history_users history) c)
  = (dict_keys c ++ first_seen (dict_keys c) history)%list.
Proof.
  revert c. induction history as [|m h IH]; intros c; simpl.
  - now rewrite app_nil_r.
  - rewrite fold_left_app, IH.
    destruct (dict_get "user" m) as [u|]; simpl; [|reflexivity].
    rewrite count_one_keys.
    destruct (existsb (String.eqb u) (dict_keys c)); [reflexivity|].
    now rewrite <- app_assoc.
Qed.

Lemma ranking_events_In (users : dict user_info) (entries : list (string * Z))
    (ev : event) :
  In ev (ranking_events users entries) <->
  exists k n info,
    In (k, n) entries /\ dict_get k users = Some info /\
    ev = Print [PStr (real_name info); PInt n; PUser info].
Proof.
  unfold ranking_events. rewrite in_flat_map. split.
  - intros [[k n] [HI Hev]]. simpl in Hev.
    destruct (dict_get k users) as [info|] eqn:E; [|contradiction].
    destruct Hev as [<-|[]]. now exists k, n, info.
  - intros (k & n & info & HI & Hget & ->). exists (k, n). split; [exact HI|].
    simpl. rewrite Hget. now left.
Qed.

Lemma ranking_lines_iff (users : dict user_info) (posters : list string)
    (ev : event) :
  In ev (ranking_events users (most_common (Counter posters))) <->
  exists k info,
    In k posters /\ dict_get k users = Some info /\
    ev = Print [PStr (real_name info);
                PInt (Z.of_nat (count_occ string_dec posters k));
                PUser info].
Proof.
  rewrite ranking_events_In. split.
  - intros (k & n & info & HI & Hget & ->).
    apply (Permutation_in _ (most_common_Permutation _)), Counter_In in HI.
    destruct HI as [HI ->]. now exists k, info.
  - intros (k & info & HI & Hget & ->).
    exists k, (Z.of_nat (count_occ string_dec posters k)), info.
    split; [|now split].
    apply (Permutation_in _ (Permutation_sym (most_common_Permutation _))).
    now apply Counter_In.
Qed.

(** X19: the debug ranking has a line for a user exactly when the
    user is in the roster and has a message in the history; the line shows
    the user's real name, the number of the user's messages and the roster
    record.  Posters that are not in the roster get no line. *)
Theorem ranking_lines (users : dict user_info) (posters : list string)
    (ev : event) :
  In ev (ranking_events users (most_common (Counter posters))) <->
  exists k info,
    In k posters /\ dict_get k users = Some info /\
    ev = Print [PStr (real_name info);
                PInt (Z.of_nat (count_occ string_dec posters k));
                PUser info].
Proof. apply ranking_lines_iff. Qed.

(** X20: the order of the ranking: the counts never increase from one
    entry to the next, entries with the same count keep the order of the
    counter, and the counter lists the posters in the order of their first
    message. *)
Theorem ranking_order (history : list message) :
  StronglySorted (fun a b => (snd b <= snd a)%Z)
    (most_common (Counter (history_users history))) /\
  (forall n,
     filter (fun e => Z.eqb (snd e) n)
       (most_common (Counter (history_users history)))
     = filter (fun e => Z.eqb (snd e) n) (Counter (history_users history))) /\
  dict_keys (Counter (history_users history)) = first_seen [] history.
Proof.
  split; [apply most_common_sorted|]. split; [intros n; apply most_common_ties|].
  unfold Counter. now rewrite counter_fold_keys.
Qed.

Lemma has_posted_history_users (history : list message) (k : string) :
  has_posted k history = true <-> In k (history_users history).
Proof.
  rewrite has_posted_true. unfold history_users. rewrite in_flat_map.
  split; intros [m [HI H]]; exists m; (split; [exact HI|]).
  - rewrite H. now left.
  - destruct (dict_get "user" m) as [u|]; [|contradiction].
    destruct H as [->|[]]. reflexivity.
Qed.

(** X21: the presence map and the ranking agree: a roster user is
    marked present exactly when the ranking has the user's line, with the
    number of the user's messages. *)
Theorem presence_matches_ranking (history : list message)
    (users : dict user_info) (k : string) (info : user_info) :
  dict_get k users = Some info ->
  (dict_get k (aggregate_activity history users) = Some true <->
   In (Print [PStr (real_name info);
              PInt (Z.of_nat (count_occ string_dec (history_users history) k));
              PUser info])
      (ranking_events users (most_common (Counter (history_users history))))).
Proof.
  intros Hget. rewrite ranking_lines_iff, aggregate_activity_get.
  unfold dict_mem. rewrite Hget. split.
  - destruct (has_posted k history) eqn:Hp; [|discriminate]. intros _.
    apply has_posted_history_users in Hp. now exists k, info.
  - intros (k' & info' & HI & _ & Hev). injection Hev as _ Hn _.
    apply Nat2Z.inj in Hn.
    apply (count_occ_In string_dec) in HI. rewrite <- Hn in HI.
    apply (count_occ_In string_dec), has_posted_history_users in HI.
    now rewrite HI.
Qed.

Lemma presence_matches_ranking_witness :
  dict_get "u1"
    (aggregate_activity [sample_message "u1" "1"; sample_message "u1" "2"]
       sample_roster) = Some true <->
  In (Print [PStr "Alice"; PInt 2; PUser sample_alice])
     (ranking_events sample_roster
        (most_common
           (Counter (history_users
                       [sample_message "u1" "1"; sample_message "u1" "2"])))).
Proof.
  exact (presence_matches_ranking
           [sample_message "u1" "1"; sample_message "u1" "2"]
           sample_roster "u1" sample_alice eq_refl).
Defined.

(** ** The report of a completed run *)

(** X22: a run that completes ends by printing the report: the
    introduction with the number of days and the name of the input channel,
    a newline, and then the congratulation when every roster user has a
    message in the fetched history, or else the texts of the roster users
    without one, in roster order. *)
Theorem run_report (w : world) (args : cli_args) (tr : list event) :
  run w args = (tr, Return tt) ->
  exists pre token input_channel output_channel users
         channel_id channel_name history,
    read_config_files w args
    = Return (token, input_channel, output_channel, users) /\
    dict_get "channel_id" input_channel = Some channel_id /\
    dict_get "channel_name" input_channel = Some channel_name /\
    snd (get_message_history w token channel_id channel_name (num_days args))
    = Return history /\
    tr = (pre ++
          [Print [PStr (full_message
                          ("Who's NOT present in the last "
                           ++ format_int (num_days args)
                           ++ " days on #" ++ channel_name ++ "?")
                          (match absentees history users with
                           | [] => "Go team!"
                           | l => String.concat (", " ++ nl) (map entry_text l)
                           end))]])%list.
Proof.
  intros Hrun.
  destruct (read_config_files w args) as [[[[token ic] oc] users]|e0] eqn:Hcfg.
  2:{ unfold run, lift in Hrun. rewrite Hcfg in Hrun. discriminate. }
  destruct (dict_get "channel_id" ic) as [cid|] eqn:Hid.
  2:{ unfold run, lift in Hrun. rewrite Hcfg in Hrun. simpl in Hrun.
      unfold getitem in Hrun. rewrite Hid in Hrun. discriminate. }
  destruct (dict_get "channel_name" ic) as [cname|] eqn:Hname.
  2:{ unfold run, lift in Hrun. rewrite Hcfg in Hrun. simpl in Hrun.
      unfold getitem in Hrun. rewrite Hid, Hname in Hrun. discriminate. }
  destruct (get_message_history w token cid cname (num_days args))
    as [t [history|e1]] eqn:Hfetch.
  2:{ unfold run, lift in Hrun. rewrite Hcfg in Hrun. simpl in Hrun.
      unfold getitem in Hrun. rewrite Hid, Hname in Hrun. simpl in Hrun.
      rewrite Hfetch in Hrun. discriminate. }
  destruct (run_after_fetch w args token cid cname ic oc users t history
              Hcfg Hid Hname Hfetch) as [c [Hc Hr]].
  assert (Hwf : dict_wf users).
  { destruct (read_config_files_inv w args token ic oc users Hcfg)
      as (rows & _ & Hrows).
    apply (roster_of_rows_invariant rows [] users Hrows); [apply dict_wf_nil|].
    intros k info. discriminate. }
  rewrite (make_conclusion_aggregate_eq history users Hwf) in Hc.
  injection Hc as <-.
  rewrite Hr in Hrun. injection Hrun as <-.
  exists (t ++ Print [PStr (nl ++ "MOST ACTIVE: (for debug purposes)")]
            :: ranking_events users
                 (most_common (Counter (history_users history)))
            ++ [Print [PStr (nl ++ nl)]])%list.
  exists token, ic, oc, users, cid, cname, history.
  repeat split; auto.
  - now rewrite Hfetch.
  - unfold report_events. rewrite <- !app_assoc. simpl.
    rewrite <- !app_assoc. reflexivity.
Qed.

Lemma run_report_witness :
  exists pre token input_channel output_channel users
         channel_id channel_name history,
    read_config_files sample_world sample_args
    = Return (token, input_channel, output_channel, users) /\
    dict_get "channel_id" input_channel = Some channel_id /\
    dict_get "channel_name" input_channel = Some channel_name /\
    snd (get_message_history sample_world token channel_id channel_name
           (num_days sample_args))
    = Return history /\
    fst (run sample_world sample_args)
    = (pre ++
       [Print [PStr (full_message
                       ("Who's NOT present in the last "
                        ++ format_int (num_days sample_args)
                        ++ " days on #" ++ channel_name ++ "?")
                       (match absentees history users with
                        | [] => "Go team!"
                        | l => String.concat (", " ++ nl) (map entry_text l)
                        end))]])%list.
Proof.
  exact (run_report sample_world sample_args _ eq_refl).
Defined.

(** ** Lookback cutoff *)

Lemma timestamp_for_days_ago_inv (w : world) (d n q : Z) :
  timestamp_for_days_ago w d = Return (TrueDiv n q) ->
  q = 1000000%Z /\ n = (datetime_now w - d * us_per_day - epoch)%Z.
Proof.
  unfold timestamp_for_days_ago, timedelta_days, datetime_sub.
  destruct (Z.abs d <=? 999999999)%Z; simpl; [|discriminate].
  destruct ((0 <=? datetime_now w - d * us_per_day)
            && (datetime_now w - d * us_per_day <? datetime_end))%Z;
    simpl; [|discriminate].
  intros [= <- <-]. auto.
Qed.

(** X23: the cutoffs of two lookbacks are apart by exactly the number
    of days between them: both are quotients by one million microseconds,
    and their numerators differ by that many days; so a longer lookback
    never gives a later cutoff. *)
Theorem timestamp_for_days_ago_spacing (w : world) (d1 d2 n1 q1 n2 q2 : Z) :
  timestamp_for_days_ago w d1 = Return (TrueDiv n1 q1) ->
  timestamp_for_days_ago w d2 = Return (TrueDiv n2 q2) ->
  q1 = 1000000%Z /\ q2 = 1000000%Z /\
  (n1 - n2 = (d2 - d1) * (86400 * 1000000))%Z /\
  ((d1 <= d2)%Z -> (n2 <= n1)%Z).
Proof.
  intros H1 H2.
  apply timestamp_for_days_ago_inv in H1. destruct H1 as [-> ->].
  apply timestamp_for_days_ago_inv in H2. destruct H2 as [-> ->].
  unfold us_per_day. repeat split; lia.
Qed.

Lemma timestamp_for_days_ago_spacing_witness :
  1000000%Z = 1000000%Z /\ 1000000%Z = 1000000%Z /\
  (1713398400000005 - 1712793600000005 = (14 - 7) * (86400 * 1000000))%Z /\
  ((7 <= 14)%Z -> (1712793600000005 <= 1713398400000005)%Z).
Proof.
  exact (timestamp_for_days_ago_spacing sample_world 7 14
           1713398400000005 1000000 1712793600000005 1000000
           eq_refl eq_refl).
Defined.

(** ** Lookback cutoff: the range of the lookback *)




(** ** The layout of the report *)

(** C9 (as amended): the report is the introduction, exactly one
    newline character, and the conclusion; and this text is what a run
    that completes prints last. *)
Theorem report_single_newline (w : world) (args : cli_args) :
  (forall introduction conclusion,
     full_message introduction conclusion
     = introduction ++ nl ++ conclusion) /\
  (forall tr,
     run w args = (tr, Return tt) ->
     exists pre introduction conclusion,
       tr = (pre ++ [Print [PStr (introduction ++ nl ++ conclusion)]])%list).
Proof.
  split; [reflexivity|].
  intros tr H. apply run_prints_report in H.
  destruct H as (pre & _ & _ & _ & _ & _ & _ & _ & i & c & _ & _ & _ & _ & ->).
  now exists pre, i, c.
Qed.

(** C9 (as stated, for the sample introduction and conclusion): the
    report has no empty line between the two: it is not the introduction,
    a blank line and the conclusion. *)
Lemma full_message_no_blank_line :
  full_message "Who's NOT present in the last 7 days on #standup?"
    "Carol (carol)"
  = "Who's NOT present in the last 7 days on #standup?" ++ nl ++ "Carol (carol)"
  /\
  full_message "Who's NOT present in the last 7 days on #standup?"
    "Carol (carol)"
  <> "Who's NOT present in the last 7 days on #standup?" ++ nl ++ nl
     ++ "Carol (carol)".
Proof. split; [reflexivity | discriminate]. Qed.
